(** * Level registry, question sessions and code grading of the bot

    A shallow embedding of [bot/controller.py] and [bot/questions.py].

    Python [str] values are modelled as [string]: sequences of characters
    whose code points are below 256.  Python [int] values are modelled as
    [Z].  A call that may raise returns a [result]; a method that mutates
    [self] is a function from the state before the call to the outcome and
    the state after it. *)

From Stdlib Require Import ZArith List Bool Ascii String Lia.
From Stdlib Require Import Numbers.DecimalString.
Import ListNotations.

Open Scope string_scope.
Open Scope Z_scope.

(** ** Exceptions and outcomes *)

(** The exception classes the modelled code raises.  [ValueError] carries
    the optional message given at the [raise]; [KeyError] the missing key;
    [TypeError] the name of the call whose arguments did not bind;
    [External] stands for an exception raised by a collaborator that is not
    part of these files (the code evaluation service, [Level.run]). *)
Inductive exn : Type :=
| ValueError (msg : option string)
| KeyError (key : string)
| TypeError (callee : string)
| External (name : string).

Inductive result (A : Type) : Type :=
| Ok (a : A)
| Raise (e : exn).

Arguments Ok {A} a.
Arguments Raise {A} e.

Definition bind {A B : Type} (r : result A) (k : A -> result B) : result B :=
  match r with
  | Ok a => k a
  | Raise e => Raise e
  end.

Notation "x <- r ;; k" := (bind r (fun x => k))
  (at level 61, r at next level, right associativity).

(** ** Python string primitives *)

Module Str.

Definition code (c : ascii) : Z := Z.of_nat (nat_of_ascii c).

Definition chr (n : nat) : ascii := ascii_of_nat n.

Definition tab : ascii := chr 9.
Definition lf : ascii := chr 10.
Definition cr : ascii := chr 13.
Definition space : ascii := chr 32.

(** The one-character string ["\n"]. *)
Definition nl : string := String lf "".

(** [str.isspace] on one character, which is also the class [\s] of [re]
    for [str] patterns; [\S] is its complement. *)
Definition is_space (c : ascii) : bool :=
  let n := code c in
  ((9 <=? n) && (n <=? 13)) || ((28 <=? n) && (n <=? 32))
  || (n =? 133) || (n =? 160).

Definition is_digit (c : ascii) : bool :=
  let n := code c in (48 <=? n) && (n <=? 57).

Fixpoint all (p : ascii -> bool) (s : string) : bool :=
  match s with
  | "" => true
  | String c s' => p c && all p s'
  end.

(** [sep.join(ls)]. *)
Definition join (sep : string) (ls : list string) : string :=
  String.concat sep ls.

(** [" " * n]; an empty string when [n <= 0]. *)
Definition spaces (n : Z) : string :=
  string_of_list_ascii (repeat space (Z.to_nat n)).

(** [s.expandtabs(tabsize)], started at column [col]: a tab is replaced
    by the spaces that reach the next multiple of [tabsize] (by nothing
    when [tabsize <= 0]); the column restarts after a line feed or a
    carriage return. *)
Fixpoint expandtabs_from (tabsize col : Z) (s : string) : string :=
  match s with
  | "" => ""
  | String c s' =>
      if Ascii.eqb c tab then
        if 0 <? tabsize then
          let incr := tabsize - col mod tabsize in
          spaces incr ++ expandtabs_from tabsize (col + incr) s'
        else expandtabs_from tabsize col s'
      else
        String c
          (expandtabs_from tabsize
             (if Ascii.eqb c lf || Ascii.eqb c cr then 0 else col + 1) s')
  end.

Definition expandtabs (tabsize : Z) (s : string) : string :=
  expandtabs_from tabsize 0 s.

(** [needle in hay]. *)
Fixpoint contains (needle hay : string) : bool :=
  String.prefix needle hay
  || match hay with
     | "" => false
     | String _ hay' => contains needle hay'
     end.

(** [s.split("\n")]. *)
Fixpoint lines (s : string) : list string :=
  match s with
  | "" => [""]
  | String c s' =>
      if Ascii.eqb c lf then "" :: lines s'
      else match lines s' with
           | [] => [String c ""]
           | l :: ls => String c l :: ls
           end
  end.

(** [str(n)] for an integer. *)
Definition of_int (n : Z) : string := NilEmpty.string_of_int (Z.to_int n).

(** [l[:n]]: the first [n] items, or all but the last [-n] when [n] is
    negative. *)
Definition slice_to {A : Type} (n : Z) (l : list A) : list A :=
  if n <? 0 then firstn (Z.to_nat (Z.of_nat (List.length l) + n)) l
  else firstn (Z.to_nat n) l.

End Str.

(** ** The fragment of [re] the classifier uses *)

Module Re.

(** What one pattern position accepts: a literal character, [\S], or a
    decimal digit. *)
Inductive cclass : Type :=
| Lit (c : ascii)
| NotSpace
| Digit.

Definition accepts (k : cclass) (c : ascii) : bool :=
  match k with
  | Lit c' => Ascii.eqb c c'
  | NotSpace => negb (Str.is_space c)
  | Digit => Str.is_digit c
  end.

(** Pattern items: one character of a class, a class repeated one or more
    times ([+]), the anchor [$] (end of the text, or just before a line
    feed that ends the text) and the anchor [\Z] (end of the text). *)
Inductive item : Type :=
| One (k : cclass)
| Plus (k : cclass)
| Dollar
| EndOfText.

Definition pattern : Type := list item.

Fixpoint lit (s : string) : pattern :=
  match s with
  | "" => []
  | String c s' => One (Lit c) :: lit s'
  end.

(** Does the pattern match at the start of [s]?  Backtracking over the
    lengths a [+] may take is the disjunction in the inner loop. *)
Fixpoint match_here (p : pattern) (s : string) {struct p} : bool :=
  match p with
  | [] => true
  | One k :: p' =>
      match s with
      | "" => false
      | String c s' => accepts k c && match_here p' s'
      end
  | Plus k :: p' =>
      (fix more (s : string) : bool :=
         match s with
         | "" => false
         | String c s' => accepts k c && (more s' || match_here p' s')
         end) s
  | Dollar :: p' =>
      (String.eqb s "" || String.eqb s Str.nl) && match_here p' s
  | EndOfText :: p' => String.eqb s "" && match_here p' s
  end.

(** [bool(p.search(s))]: the pattern matches at some position of [s]. *)
Fixpoint search (p : pattern) (s : string) : bool :=
  match_here p s
  || match s with
     | "" => false
     | String _ s' => search p s'
     end.

End Re.

(** [check_test = re.compile(r"Ran 1 test in \S+s\n\nOK\n$")]. *)
Definition check_test : Re.pattern :=
  (Re.lit "Ran 1 test in " ++ [Re.Plus Re.NotSpace]
   ++ Re.lit ("s" ++ Str.nl ++ Str.nl ++ "OK" ++ Str.nl)%string
   ++ [Re.Dollar])%list.

(** ** Insertion-ordered dictionaries *)

(** A Python [dict] as the list of its items in insertion order, with the
    operations the modelled code uses. *)
Module Dict.
Section Ops.
Context {K V : Type}.
Variable eqb : K -> K -> bool.

(** [d.get(k)]. *)
Fixpoint get (d : list (K * V)) (k : K) : option V :=
  match d with
  | [] => None
  | (k', v) :: d' => if eqb k k' then Some v else get d' k
  end.

(** [k in d]. *)
Definition mem (k : K) (d : list (K * V)) : bool :=
  match get d k with
  | Some _ => true
  | None => false
  end.

(** [d[k] = v]: the value of an existing key is replaced where it
    stands, a new key is added at the end. *)
Fixpoint set (d : list (K * V)) (k : K) (v : V) : list (K * V) :=
  match d with
  | [] => [(k, v)]
  | (k', v') :: d' =>
      if eqb k k' then (k', v) :: d' else (k', v') :: set d' k v
  end.

(** [d.values()]. *)
Definition values (d : list (K * V)) : list V := map snd d.
End Ops.
End Dict.

(** [dict[str, str]]. *)
Definition str_dict : Type := list (string * string).

(** [d[k]] on a [dict[str, str]]. *)
Definition getitem (d : str_dict) (k : string) : result string :=
  match Dict.get String.eqb d k with
  | Some v => Ok v
  | None => Raise (KeyError k)
  end.

(** ** Questions *)

Module MultipleChoiceQuestion.

Record t : Type := {
  question : string;
  hints : list string;
  unlocked_hints : Z;
  options : str_dict;
  answer : string
}.

Definition type (_ : t) : string := "multiple_choice".

Definition __init__ (question : string) (hints : list string)
    (options : str_dict) (answer : string) : t :=
  {| question := question;
     hints := hints;
     unlocked_hints := 0;
     options := options;
     answer := answer |}.

Definition check_response (self : t) (response : string) : bool :=
  String.eqb response (answer self).

End MultipleChoiceQuestion.

Module WriteCodeQuestion.

Record t : Type := {
  question : string;
  hints : list string;
  pre_code : option string;
  unlocked_hints : Z;
  test_cases : list str_dict
}.

Definition type (_ : t) : string := "write_code".

Definition __init__ (question : string) (hints : list string)
    (test_cases : list str_dict) (pre_code : option string) : t :=
  {| question := question;
     hints := hints;
     pre_code := pre_code;
     unlocked_hints := 0;
     test_cases := test_cases |}.

Definition _get_assert_equal_string (input output : string) : string :=
  "self.assertEqual(" ++ input ++ "," ++ output ++ ")".

(** The loop of [_get_test_string] that fills [test_strings], one
    iteration per test case; a test case without the key ["input"] or
    ["output"] ends it with [KeyError]. *)
Fixpoint collect_test_strings (test_strings : list string)
    (cases : list str_dict) : result (list string) :=
  match cases with
  | [] => Ok test_strings
  | test_case :: cases' =>
      input <- getitem test_case "input" ;;
      output <- getitem test_case "output" ;;
      collect_test_strings
        (test_strings ++ [_get_assert_equal_string input output])%list
        cases'
  end.

Definition _get_test_string (self : t) (user_code : string)
    : result string :=
  test_strings <- collect_test_strings [] (test_cases self) ;;
  Ok (("import unittest" ++ Str.nl)
      ++ match pre_code self with
         | None => ""
         | Some pre => pre
         end
      ++ Str.expandtabs 2 user_code
      ++ (Str.nl ++ "class Test(unittest.TestCase):" ++ Str.nl)
      ++ " def test_cases(self):"
      ++ (Str.nl ++ "  ")
      ++ Str.join (Str.nl ++ "  ") test_strings
      ++ (Str.nl ++ "unittest.main()")).

Section Gateway.
(** [utils.eval.eval_python]: the call to the code evaluation service,
    which returns the captured output or raises. *)
Variable eval_python : string -> result string.

Definition check_response (self : t) (code : string) : result bool :=
  test_string <- _get_test_string self code ;;
  output <- eval_python test_string ;;
  Ok (Re.search check_test output).
End Gateway.

End WriteCodeQuestion.

(** The attributes of the [Question] protocol that the views read and
    write. *)
Class QuestionProtocol (Q : Type) : Type := {
  type : Q -> string;
  hints : Q -> list string;
  unlocked_hints : Q -> Z;
  (** [q.unlocked_hints = n]. *)
  set_unlocked_hints : Q -> Z -> Q
}.

#[export] Instance MultipleChoiceQuestion_protocol
    : QuestionProtocol MultipleChoiceQuestion.t := {
  type := MultipleChoiceQuestion.type;
  hints := MultipleChoiceQuestion.hints;
  unlocked_hints := MultipleChoiceQuestion.unlocked_hints;
  set_unlocked_hints q n :=
    {| MultipleChoiceQuestion.question := MultipleChoiceQuestion.question q;
       MultipleChoiceQuestion.hints := MultipleChoiceQuestion.hints q;
       MultipleChoiceQuestion.unlocked_hints := n;
       MultipleChoiceQuestion.options := MultipleChoiceQuestion.options q;
       MultipleChoiceQuestion.answer := MultipleChoiceQuestion.answer q |}
}.

#[export] Instance WriteCodeQuestion_protocol
    : QuestionProtocol WriteCodeQuestion.t := {
  type := WriteCodeQuestion.type;
  hints := WriteCodeQuestion.hints;
  unlocked_hints := WriteCodeQuestion.unlocked_hints;
  set_unlocked_hints q n :=
    {| WriteCodeQuestion.question := WriteCodeQuestion.question q;
       WriteCodeQuestion.hints := WriteCodeQuestion.hints q;
       WriteCodeQuestion.pre_code := WriteCodeQuestion.pre_code q;
       WriteCodeQuestion.unlocked_hints := n;
       WriteCodeQuestion.test_cases := WriteCodeQuestion.test_cases q |}
}.

(** A question of either class, as [question_factory] returns it. *)
Inductive Question : Type :=
| MultipleChoice (q : MultipleChoiceQuestion.t)
| WriteCode (q : WriteCodeQuestion.t).

#[export] Instance Question_protocol : QuestionProtocol Question := {
  type q :=
    match q with
    | MultipleChoice q => type q
    | WriteCode q => type q
    end;
  hints q :=
    match q with
    | MultipleChoice q => hints q
    | WriteCode q => hints q
    end;
  unlocked_hints q :=
    match q with
    | MultipleChoice q => unlocked_hints q
    | WriteCode q => unlocked_hints q
    end;
  set_unlocked_hints q n :=
    match q with
    | MultipleChoice q => MultipleChoice (set_unlocked_hints q n)
    | WriteCode q => WriteCode (set_unlocked_hints q n)
    end
}.

(** ** Question views *)

Inductive QuestionStatus : Type :=
| IN_PROGRESS
| CORRECT
| INCORRECT
| EXITED.

(** A Discord interaction, known by its identifier. *)
Definition Interaction : Type := Z.

(** What a view does to the outside: the calls it makes on interaction
    responses and on standard output. *)
Inductive event : Type :=
| send_message (interaction : Interaction) (content : string)
    (ephemeral : bool)
| defer (interaction : Interaction)
| send_modal (interaction : Interaction)
| print (text : string).

Module QuestionView.
Section View.
Context {Q : Type} `{QuestionProtocol Q}.

(** The attributes of a view; [stopped] records that [self.stop()] was
    called. *)
Record t : Type := {
  question : Q;
  next_question_interaction : option Interaction;
  status : QuestionStatus;
  stopped : bool
}.

(** A view together with the events it has caused so far. *)
Record session : Type := {
  view : t;
  emitted : list event
}.

(** A method of the view: from the session before the call to its
    outcome and the session after it. *)
Definition M (A : Type) : Type := session -> result A * session.

Definition ret {A : Type} (a : A) : M A := fun s => (Ok a, s).

Definition seq {A B : Type} (m : M A) (k : A -> M B) : M B :=
  fun s =>
    match m s with
    | (Ok a, s') => k a s'
    | (Raise e, s') => (Raise e, s')
    end.

Definition lift {A : Type} (r : result A) : M A := fun s => (r, s).

Definition emit (e : event) : M unit :=
  fun s => (Ok tt, {| view := view s; emitted := emitted s ++ [e] |}).

Definition update (f : t -> t) : M unit :=
  fun s => (Ok tt, {| view := f (view s); emitted := emitted s |}).

Definition set_question (q : Q) (v : t) : t :=
  {| question := q;
     next_question_interaction := next_question_interaction v;
     status := status v;
     stopped := stopped v |}.

Definition set_status (st : QuestionStatus) (v : t) : t :=
  {| question := question v;
     next_question_interaction := next_question_interaction v;
     status := st;
     stopped := stopped v |}.

Definition set_next_question_interaction (i : Interaction) (v : t) : t :=
  {| question := question v;
     next_question_interaction := Some i;
     status := status v;
     stopped := stopped v |}.

Definition stop (v : t) : t :=
  {| question := question v;
     next_question_interaction := next_question_interaction v;
     status := status v;
     stopped := true |}.

Definition __init__ (question : Q) : t :=
  {| question := question;
     next_question_interaction := None;
     status := IN_PROGRESS;
     stopped := false |}.

(** A session that starts on a fresh view of [question]. *)
Definition start (question : Q) : session :=
  {| view := __init__ question; emitted := [] |}.

Definition get_a_hint (interaction : Interaction) : M unit :=
  fun s =>
    let q := question (view s) in
    let q :=
      if unlocked_hints q <? Z.of_nat (List.length (hints q))
      then set_unlocked_hints q (unlocked_hints q + 1)
      else q in
    let hints_text :=
      "- " ++ Str.join (Str.nl ++ "- ")
                (Str.slice_to (unlocked_hints q) (hints q)) in
    seq (update (set_question q))
      (fun _ =>
         emit (send_message interaction
                 ("### Hints (" ++ Str.of_int (unlocked_hints q) ++ "/"
                  ++ Str.of_int (Z.of_nat (List.length (hints q)))
                  ++ ")" ++ Str.nl ++ hints_text)
                 true))
      s.

Definition on_quit (interaction : Interaction) : M unit :=
  seq (update (set_status EXITED)) (fun _ =>
  seq (update (set_next_question_interaction interaction)) (fun _ =>
  seq (emit (defer interaction)) (fun _ =>
  update stop))).

Definition quit_button (interaction : Interaction) : M unit :=
  on_quit interaction.

Definition on_success (interaction : Interaction) : M unit :=
  seq (update (set_status CORRECT)) (fun _ =>
  seq (update (set_next_question_interaction interaction)) (fun _ =>
  seq (emit (defer interaction)) (fun _ =>
  update stop))).

Definition on_fail (interaction : Interaction) : M unit :=
  seq (update (set_status INCORRECT)) (fun _ =>
  emit (send_message interaction "Incorrect answer. Please try again."
          true)).
End View.

Arguments t Q : clear implicits.
Arguments session Q : clear implicits.
Arguments M Q A : clear implicits.
End QuestionView.

Module MultipleChoiceQuestionView.

(** The callback of the button that [add_option_button] adds for
    [option_id]. *)
Definition callback (option_id : string) (interaction : Interaction)
    : QuestionView.M MultipleChoiceQuestion.t unit :=
  fun s =>
    if MultipleChoiceQuestion.check_response
         (QuestionView.question (QuestionView.view s)) option_id
    then QuestionView.on_success interaction s
    else QuestionView.on_fail interaction s.

End MultipleChoiceQuestionView.

Module WriteCodeQuestionView.
Section Gateway.
Variable eval_python : string -> result string.

(** [submit_button]; [modal] is what the modal holds once
    [modal.wait()] returns: nothing when it was not submitted, else
    [modal.submit_interaction] and [modal.code_input.value]. *)
Definition submit_button (interaction : Interaction)
    (modal : option (Interaction * string))
    : QuestionView.M WriteCodeQuestion.t unit :=
  QuestionView.seq (QuestionView.emit (send_modal interaction)) (fun _ =>
  match modal with
  | None =>
      QuestionView.seq
        (QuestionView.update (QuestionView.set_status EXITED)) (fun _ =>
      QuestionView.seq
        (QuestionView.emit
           (print "Unable to get interaction, exiting question."))
        (fun _ => QuestionView.update QuestionView.stop))
  | Some (submit_interaction, code) =>
      QuestionView.seq
        (fun s =>
           QuestionView.lift
             (WriteCodeQuestion.check_response eval_python
                (QuestionView.question (QuestionView.view s)) code) s)
        (fun correct =>
           if correct : bool
           then QuestionView.on_success submit_interaction
           else QuestionView.on_fail submit_interaction)
  end).
End Gateway.
End WriteCodeQuestionView.

(** ** The question factory *)

(** The keyword arguments [question_data] of [question_factory]: each
    keyword the question classes know is absent or bound to a value of the
    annotated type ([pre_code] may be bound to [None]); [kw_others] lists
    the remaining keywords. *)
Record kwargs : Type := {
  kw_type : option string;
  kw_question : option string;
  kw_hints : option (list string);
  kw_options : option str_dict;
  kw_answer : option string;
  kw_test_cases : option (list str_dict);
  kw_pre_code : option (option string);
  kw_others : list string
}.

(** [question_data.pop("type")]. *)
Definition pop_type (question_data : kwargs) : result kwargs :=
  match kw_type question_data with
  | None => Raise (KeyError "type")
  | Some _ =>
      Ok {| kw_type := None;
            kw_question := kw_question question_data;
            kw_hints := kw_hints question_data;
            kw_options := kw_options question_data;
            kw_answer := kw_answer question_data;
            kw_test_cases := kw_test_cases question_data;
            kw_pre_code := kw_pre_code question_data;
            kw_others := kw_others question_data |}
  end.

(** The call of [MultipleChoiceQuestion] on the keywords: it binds
    [question], [hints], [options] and [answer]; a missing one of them or
    any other keyword is a [TypeError]. *)
Definition new_MultipleChoiceQuestion (question_data : kwargs)
    : result MultipleChoiceQuestion.t :=
  match kw_question question_data, kw_hints question_data,
        kw_options question_data, kw_answer question_data,
        kw_type question_data, kw_test_cases question_data,
        kw_pre_code question_data, kw_others question_data with
  | Some question, Some hints, Some options, Some answer,
    None, None, None, [] =>
      Ok (MultipleChoiceQuestion.__init__ question hints options answer)
  | _, _, _, _, _, _, _, _ => Raise (TypeError "MultipleChoiceQuestion")
  end.

(** The call of [WriteCodeQuestion] on the keywords: it binds [question],
    [hints] and [test_cases], and [pre_code] when given ([None] when not);
    a missing one of the first three or any other keyword is a
    [TypeError]. *)
Definition new_WriteCodeQuestion (question_data : kwargs)
    : result WriteCodeQuestion.t :=
  match kw_question question_data, kw_hints question_data,
        kw_test_cases question_data,
        kw_type question_data, kw_options question_data,
        kw_answer question_data, kw_others question_data with
  | Some question, Some hints, Some test_cases, None, None, None, [] =>
      Ok (WriteCodeQuestion.__init__ question hints test_cases
            match kw_pre_code question_data with
            | Some pre_code => pre_code
            | None => None
            end)
  | _, _, _, _, _, _, _ => Raise (TypeError "WriteCodeQuestion")
  end.

Definition question_factory (question_data : kwargs) : result Question :=
  let question_type := kw_type question_data in
  question_data <- pop_type question_data ;;
  match question_type with
  | Some tag =>
      if String.eqb tag "multiple_choice" then
        q <- new_MultipleChoiceQuestion question_data ;; Ok (MultipleChoice q)
      else if String.eqb tag "write_code" then
        q <- new_WriteCodeQuestion question_data ;; Ok (WriteCode q)
      else Raise (ValueError None)
  | None => Raise (ValueError None)
  end.

(** ** The level registry *)

Module Level.

(** Modelled from the spec: the class [Level] of the module [levels] is
    not among these files; the registry reads its [id] and
    [map_position] and calls its [run]. *)
Record t : Type := {
  id : Z;
  map_position : Z * Z;
  name : string;
  topic : string
}.

End Level.

(** [p == q] on pairs of integers. *)
Definition position_eqb (p q : Z * Z) : bool :=
  (fst p =? fst q) && (snd p =? snd q).

Module Controller.

Record t : Type := {
  levels : list (Z * Level.t)
}.

Definition __init__ : t := {| levels := [] |}.

(** [add_level]: the outcome and the controller after the call. *)
Definition add_level (self : t) (level : Level.t) : result unit * t :=
  if Dict.mem Z.eqb (Level.id level) (levels self) then
    (Raise (ValueError (Some "User has completed the level")), self)
  else if existsb (position_eqb (Level.map_position level))
            (map Level.map_position (Dict.values (levels self))) then
    (Raise (ValueError None), self)
  else
    (Ok tt,
     {| levels := Dict.set Z.eqb (levels self) (Level.id level) level |}).

Fixpoint find_position (position : Z * Z) (ls : list Level.t)
    : option Level.t :=
  match ls with
  | [] => None
  | level :: ls' =>
      if position_eqb (Level.map_position level) position then Some level
      else find_position position ls'
  end.

Definition get_level_map (self : t) (position : Z * Z) : result Level.t :=
  match find_position position (Dict.values (levels self)) with
  | Some level => Ok level
  | None => Raise (ValueError None)
  end.

Section Run.
(** [Level.run], which is not among these files: it acts on a state
    [W] outside the controller and returns a value or raises. *)
Variables W R : Type.
Variable run : Level.t -> Z -> W -> result R * W.

(** The list comprehension of [play_level]: [run] is called on the
    levels in order, up to the first call that raises. *)
Fixpoint run_each (ls : list Level.t) (use_level : Z) (w : W)
    : result (list R) * W :=
  match ls with
  | [] => (Ok [], w)
  | level :: ls' =>
      match run level use_level w with
      | (Ok r, w') =>
          match run_each ls' use_level w' with
          | (Ok rs, w'') => (Ok (r :: rs), w'')
          | (Raise e, w'') => (Raise e, w'')
          end
      | (Raise e, w') => (Raise e, w')
      end
  end.

Definition play_level (self : t) (use_level : Z) (w : W)
    : result unit * W :=
  match run_each (Dict.values (levels self)) use_level w with
  | (Ok _, w') => (Ok tt, w')
  | (Raise e, w') => (Raise e, w')
  end.
End Run.

End Controller.

(** ** The rest of [bot/questions.py] *)

(** The buttons that [MultipleChoiceQuestionView] adds for the options. *)
Module OptionButtons.

(** A button of an option: its emoji, its label and the option its
    callback answers with. *)
Record button : Type := {
  emoji : string;
  label : string;
  answers : string
}.

(** The table of [_emoji]. *)
Definition ids : str_dict :=
  [("a", "<:letter_a:1265996405164474368>");
   ("b", "<:letter_b:1265996406028636232>");
   ("c", "<:letter_c:1265996407647768716>");
   ("d", "<:letter_d:1265996409040277595>");
   ("e", "<:letter_e:1265996410453622945>");
   ("f", "<:letter_a:1265996405164474368>")].

Definition _emoji (option_id : string) : result string :=
  getitem ids option_id.

(** [add_option_button]: the children of the view after the call. *)
Definition add_option_button (children : list button)
    (option_id label : string) : result (list button) :=
  e <- _emoji option_id ;;
  Ok (children ++ [{| emoji := e; label := label; answers := option_id |}])
       %list.

(** The loop of [__init__] over [question.options.items()]. *)
Fixpoint add_option_buttons (children : list button) (items : str_dict)
    : result (list button) :=
  match items with
  | [] => Ok children
  | (option_id, label) :: items' =>
      children <- add_option_button children option_id label ;;
      add_option_buttons children items'
  end.

(** [MultipleChoiceQuestionView.__init__]: the view and its option
    buttons. *)
Definition __init__ (question : MultipleChoiceQuestion.t)
    : result (QuestionView.t MultipleChoiceQuestion.t * list button) :=
  let self := QuestionView.__init__ question in
  children <- add_option_buttons [] (MultipleChoiceQuestion.options question) ;;
  Ok (self, children).

End OptionButtons.

(** What [Question.view] returns. *)
Inductive AnyView : Type :=
| MultipleChoiceView (v : QuestionView.t MultipleChoiceQuestion.t)
    (buttons : list OptionButtons.button)
| WriteCodeView (v : QuestionView.t WriteCodeQuestion.t).

(** [Question.view] on a question of one of the two classes, each of which
    sets its [type] when it is made. *)
Definition Question_view (self : Question) : result AnyView :=
  match self with
  | MultipleChoice q =>
      vb <- OptionButtons.__init__ q ;;
      Ok (MultipleChoiceView (fst vb) (snd vb))
  | WriteCode q => Ok (WriteCodeView (QuestionView.__init__ q))
  end.


Module Playground.
Section Gateway.
Variable eval_python : string -> result string.


End Gateway.
End Playground.

(** ** [bot/map.py]: moving on the map *)

Module Map.

(** The members of the enumeration [MapPosition], in order. *)
Definition MapPosition : list (string * (Z * Z)) :=
  [("Lvl1", (1, 0)); ("Lvl2", (3, 0)); ("Lvl3", (5, 0)); ("Lvl4", (8, 0));
   ("Lvl5", (10, 0)); ("Lvl6", (11, 1)); ("Lvl7", (11, 3));
   ("Lvl8", (11, 5)); ("Lvl9", (10, 6)); ("Lvl10", (8, 6));
   ("Lvl11", (6, 6)); ("LvlA", (8, -2)); ("LvlB", (12, 1));
   ("LvlC", (13, 4))].

Definition is_level (coord : Z * Z) : bool :=
  existsb (position_eqb coord) (map snd MapPosition).

(** The loop of [get_embed_description] over the members. *)
Fixpoint find_member (position : Z * Z) (members : list (string * (Z * Z)))
    : option string :=
  match members with
  | [] => None
  | (key, value) :: members' =>
      if position_eqb value position then Some key
      else find_member position members'
  end.

Definition get_embed_description (position : Z * Z) : string :=
  match find_member position MapPosition with
  | Some key =>
      "Hovering: " ++ key ++ Str.nl
      ++ "**Press <:check:1265079659448766506> to start level.**"
  | None => "Press the arrow keys to move around."
  end.

(** A button of the map view: its [custom_id] and whether it is
    disabled. *)
Record button : Type := {
  custom_id : string;
  disabled : bool
}.

Definition set_disabled (child : button) (d : bool) : button :=
  {| custom_id := custom_id child; disabled := d |}.

(** The attributes of a [Map] view; [user] is the display name of its
    user, [children] its buttons. *)
Record t : Type := {
  position : Z * Z;
  user : string;
  children : list button
}.

(** The five buttons of the class, in the order of their declaration;
    only [confirm] starts disabled. *)
Definition __init__ (position : Z * Z) (user : string) : t :=
  {| position := position;
     user := user;
     children :=
       [{| custom_id := "button_left"; disabled := false |};
        {| custom_id := "button_up"; disabled := false |};
        {| custom_id := "button_right"; disabled := false |};
        {| custom_id := "button_down"; disabled := false |};
        {| custom_id := "button_confirm"; disabled := true |}] |}.

Section World.
(** The table of [map_z.json], which is not among these files: for a
    column [x] and a row [y] of the map, written in decimal, the height of
    the square. *)
Variable map_z : list (string * list (string * Z)).

(** The picture that [navigate] attaches: [generate_map] and
    [image_to_discord_file] draw it with Pillow from the image files, for a
    position and a player name; the drawing returns a picture or raises. *)
Variable Image : Type.
Variable draw : Z * Z -> string -> result Image.

(** What a map view does to the outside: it edits its message, with a
    description, a picture and its buttons, or answers the confirm
    button. *)
Inductive map_event : Type :=
| edit_message (interaction : Interaction) (display_name : string)
    (description : string) (img : Image) (view : list button)
| confirmed (interaction : Interaction) (content : string)
    (ephemeral : bool).

Definition validate_coord (coord : Z * Z) : bool :=
  negb
    (match Dict.get String.eqb map_z (Str.of_int (fst coord)) with
     | None => true
     | Some column =>
         match Dict.get String.eqb column (Str.of_int (snd coord)) with
         | None => true
         | Some _ => false
         end
     end).

Definition should_disable (x y : Z) : bool := negb (validate_coord (x, y)).

(** The body of the loop of [update_buttons], for one child. *)
Definition update_button (x y : Z) (at_level : bool) (child : button)
    : button :=
  let child :=
    if String.eqb (custom_id child) "button_left"
    then set_disabled child (should_disable (x - 1) y) else child in
  let child :=
    if String.eqb (custom_id child) "button_up"
    then set_disabled child (should_disable x (y - 1)) else child in
  let child :=
    if String.eqb (custom_id child) "button_down"
    then set_disabled child (should_disable x (y + 1)) else child in
  let child :=
    if String.eqb (custom_id child) "button_right"
    then set_disabled child (should_disable (x + 1) y) else child in
  if String.eqb (custom_id child) "button_confirm"
  then set_disabled child (negb at_level) else child.

Definition update_buttons (self : t) : t :=
  let (x, y) := position self in
  {| position := position self;
     user := user self;
     children :=
       map (update_button x y (is_level (position self))) (children self) |}.

(** A method of the view: its outcome, the view after the call and the
    events of the call. *)
Definition navigate (interaction : Interaction) (self : t)
    : result unit * t * list map_event :=
  let description := get_embed_description (position self) in
  match draw (position self) (user self) with
  | Raise e => (Raise e, self, [])
  | Ok img =>
      let self := update_buttons self in
      (Ok tt, self,
       [edit_message interaction (user self) description img
          (children self)])
  end.

Definition move (interaction : Interaction) (x y : Z) (self : t)
    : result unit * t * list map_event :=
  let (old_x, old_y) := position self in
  let new_coord := (old_x + x, old_y + y) in
  if validate_coord new_coord then
    navigate interaction
      {| position := new_coord; user := user self;
         children := children self |}
  else (Ok tt, self, []).

Definition button_left_clicked (interaction : Interaction) (self : t) :=
  move interaction (-1) 0 self.

Definition button_up_clicked (interaction : Interaction) (self : t) :=
  move interaction 0 (-1) self.

Definition button_right_clicked (interaction : Interaction) (self : t) :=
  move interaction 1 0 self.

Definition button_down_clicked (interaction : Interaction) (self : t) :=
  move interaction 0 1 self.

Definition confirm (interaction : Interaction) (self : t)
    : result unit * t * list map_event :=
  (Ok tt, self, [confirmed interaction "Confirmed/selected." true]).
End World.

End Map.

(** ** Definitions that follow the specification's wording *)

(** The trailer of a test report that ran one test successfully, with
    [elapsed] as the reported time. *)
Definition success_trailer (elapsed : string) : string :=
  "Ran 1 test in " ++ elapsed ++ "s" ++ Str.nl ++ Str.nl ++ "OK" ++ Str.nl.

(** The trailer of a test report with one failure. *)
Definition failure_trailer (elapsed : string) : string :=
  "Ran 1 test in " ++ elapsed ++ "s" ++ Str.nl ++ Str.nl
  ++ "FAILED (failures=1)" ++ Str.nl.

(** The success pattern as the specification words it: the elapsed time
    is a decimal, digits, a point and at least one more digit, and the
    trailer ends the text. *)
Definition spec_success_pattern : Re.pattern :=
  (Re.lit "Ran 1 test in " ++ [Re.Plus Re.Digit] ++ Re.lit "."
   ++ [Re.Plus Re.Digit]
   ++ Re.lit ("s" ++ Str.nl ++ Str.nl ++ "OK" ++ Str.nl)%string
   ++ [Re.EndOfText])%list.

Definition spec_classifier (output : string) : bool :=
  Re.search spec_success_pattern output.

(** Tab expansion as the specification words it: every horizontal tab
    becomes two spaces. *)
Fixpoint spec_expand_tabs (s : string) : string :=
  match s with
  | "" => ""
  | String c s' =>
      if Ascii.eqb c Str.tab then "  " ++ spec_expand_tabs s'
      else String c (spec_expand_tabs s')
  end.

(** The assertion the specification names for a test case. *)
Definition spec_assert_string (input output : string) : string :=
  "assertEquality(" ++ input ++ "," ++ output ++ ")".

(** ** Vocabulary of the statements *)

(** The test case [test_case] holds [fst io] under ["input"] and [snd io]
    under ["output"]. *)
Definition reads_as (test_case : str_dict) (io : string * string) : Prop :=
  getitem test_case "input" = Ok (fst io)
  /\ getitem test_case "output" = Ok (snd io).

(** The text has no horizontal tab. *)
Definition tab_free (s : string) : bool :=
  Str.all (fun c => negb (Ascii.eqb c Str.tab)) s.

(** The text of [pre_code] that the harness starts the program with. *)
Definition pre_code_text (self : WriteCodeQuestion.t) : string :=
  match WriteCodeQuestion.pre_code self with
  | None => ""
  | Some pre => pre
  end.

(** The part of the harness that follows the candidate code, for the
    assertions [test_strings]. *)
Definition test_class (test_strings : list string) : string :=
  (Str.nl ++ "class Test(unittest.TestCase):" ++ Str.nl)
  ++ " def test_cases(self):"
  ++ (Str.nl ++ "  ")
  ++ Str.join (Str.nl ++ "  ") test_strings
  ++ (Str.nl ++ "unittest.main()").

(** The question and the submission of the specification's example. *)
Definition add_question : WriteCodeQuestion.t :=
  WriteCodeQuestion.__init__ "Write add." []
    [[("input", "add(1,2)"); ("output", "3")]] None.

Definition add_code : string := "def add(a,b): return a+b".

(** The program the harness builder makes of them. *)
Definition add_program : string :=
  "import unittest" ++ Str.nl
  ++ "def add(a,b): return a+b" ++ Str.nl
  ++ "class Test(unittest.TestCase):" ++ Str.nl
  ++ " def test_cases(self):" ++ Str.nl
  ++ "  self.assertEqual(add(1,2),3)" ++ Str.nl
  ++ "unittest.main()".

(** The column at which a text ends when it starts at column [col]: the
    number of characters after its last line feed or carriage return, or
    [col] more than its length when it has none. *)
Fixpoint column_from (col : Z) (s : string) : Z :=
  match s with
  | "" => col
  | String c s' =>
      column_from
        (if Ascii.eqb c Str.lf || Ascii.eqb c Str.cr then 0 else col + 1) s'
  end.

(** The column at which a text ends: the length of its last line. *)
Definition column (s : string) : Z := column_from 0 s.

(** A submission with a tab between two letters. *)
Definition tabbed_code : string := "a" ++ String Str.tab "b".

(** One press of the hint button per interaction of the list, in order. *)
Fixpoint hint_requests {Q : Type} `{QuestionProtocol Q}
    (interactions : list Interaction) (s : QuestionView.session Q)
    : result unit * QuestionView.session Q :=
  match interactions with
  | [] => (Ok tt, s)
  | interaction :: rest =>
      match QuestionView.get_a_hint interaction s with
      | (Ok _, s') => hint_requests rest s'
      | (Raise e, s') => (Raise e, s')
      end
  end.

(** The unlocked-hint count of the question a session is about. *)
Definition unlocked {Q : Type} `{QuestionProtocol Q}
    (s : QuestionView.session Q) : Z :=
  unlocked_hints (QuestionView.question (QuestionView.view s)).

(** The number of hints of the question a session is about. *)
Definition hint_total {Q : Type} `{QuestionProtocol Q}
    (s : QuestionView.session Q) : Z :=
  Z.of_nat (List.length (hints (QuestionView.question (QuestionView.view s)))).

(** The event is a message sent to the user. *)
Definition is_message (e : event) : bool :=
  match e with
  | send_message _ _ _ => true
  | _ => false
  end.

(** A code evaluation service that cannot be reached. *)
Definition unreachable (program : string) : result string :=
  Raise (External "ClientConnectionError").

(** The controllers that registration makes: a new controller, and what
    [add_level] leaves of one, whether the call returned or raised. *)
Inductive registry : Controller.t -> Prop :=
| registry_new : registry Controller.__init__
| registry_add (self : Controller.t) (level : Level.t) :
    registry self -> registry (snd (Controller.add_level self level)).

(** The levels a controller holds, in registration order. *)
Definition registered (self : Controller.t) : list Level.t :=
  Dict.values (Controller.levels self).

(** The invariant of registration: every level is stored under its own
    id, and no two stored levels share an id or a map position. *)
Definition well_keyed (self : Controller.t) : Prop :=
  map fst (Controller.levels self) = map Level.id (registered self)
  /\ NoDup (map Level.id (registered self))
  /\ NoDup (map Level.map_position (registered self)).

(** A [Level.run] that only records on which level it was called and with
    which argument. *)
Definition recording_run (level : Level.t) (use_level : Z)
    (calls : list (Z * Z)) : result unit * list (Z * Z) :=
  (Ok tt, (calls ++ [(Level.id level, use_level)])%list).

Definition level_1 : Level.t :=
  {| Level.id := 1; Level.map_position := (1, 0);
     Level.name := "Level 1"; Level.topic := "Basics" |}.

Definition level_2 : Level.t :=
  {| Level.id := 2; Level.map_position := (3, 0);
     Level.name := "Level 2"; Level.topic := "Loops" |}.

(** A controller with the two levels registered. *)
Definition two_levels : Controller.t :=
  snd (Controller.add_level
         (snd (Controller.add_level Controller.__init__ level_1)) level_2).

(** Keyword arguments that bind nothing. *)
Definition no_keywords : kwargs :=
  {| kw_type := None; kw_question := None; kw_hints := None;
     kw_options := None; kw_answer := None; kw_test_cases := None;
     kw_pre_code := None; kw_others := [] |}.

(** The keywords of a multiple choice definition. *)
Definition multiple_choice_data (question : string) (hints : list string)
    (options : str_dict) (answer : string) : kwargs :=
  {| kw_type := Some "multiple_choice"; kw_question := Some question;
     kw_hints := Some hints; kw_options := Some options;
     kw_answer := Some answer; kw_test_cases := None;
     kw_pre_code := None; kw_others := [] |}.

(** The keywords of a write code definition; [pre_code] is absent, or
    bound to a text or to [None]. *)
Definition write_code_data (question : string) (hints : list string)
    (test_cases : list str_dict) (pre_code : option (option string))
    : kwargs :=
  {| kw_type := Some "write_code"; kw_question := Some question;
     kw_hints := Some hints; kw_options := None;
     kw_answer := None; kw_test_cases := Some test_cases;
     kw_pre_code := pre_code; kw_others := [] |}.

(** A multiple choice definition without its options and its answer. *)
Definition incomplete_data : kwargs :=
  {| kw_type := Some "multiple_choice"; kw_question := Some "2 + 2?";
     kw_hints := Some []; kw_options := None;
     kw_answer := None; kw_test_cases := None;
     kw_pre_code := None; kw_others := [] |}.

(** A definition with an unknown tag. *)
Definition bogus_data : kwargs :=
  {| kw_type := Some "bogus"; kw_question := Some "2 + 2?";
     kw_hints := Some []; kw_options := None;
     kw_answer := None; kw_test_cases := None;
     kw_pre_code := None; kw_others := [] |}.

(** The view is stopped exactly when its status is final. *)
Definition settled {Q : Type} `{QuestionProtocol Q}
    (s : QuestionView.session Q) : Prop :=
  QuestionView.stopped (QuestionView.view s) = true
  <-> (QuestionView.status (QuestionView.view s) = CORRECT
       \/ QuestionView.status (QuestionView.view s) = EXITED).

(** The option ids that [_emoji] knows. *)
Definition known_option_id (option_id : string) : bool :=
  existsb (String.eqb option_id) ["a"; "b"; "c"; "d"; "e"; "f"].

(** The text has no line feed. *)
Definition line_free (s : string) : bool :=
  Str.all (fun c => negb (Ascii.eqb c Str.lf)) s.

(** A controller on which [add_level] was called for each level of the
    list, in order, whatever the outcome of each call. *)
Definition register_all (ls : list Level.t) : Controller.t :=
  fold_left (fun self level => snd (Controller.add_level self level)) ls
    Controller.__init__.

(** The view of a map after the moves [steps], each a pair of [x] and
    [y], were asked for in order, whatever the outcome of each. *)
Definition after_moves {Image : Type}
    (map_z : list (string * list (string * Z)))
    (draw : Z * Z -> string -> result Image)
    (steps : list (Z * Z)) (self : Map.t) : Map.t :=
  fold_left
    (fun self step =>
       snd (fst (Map.move map_z Image draw 0 (fst step) (snd step) self)))
    steps self.

(** The [custom_id]s of the buttons of a map view. *)
Definition map_button_ids : list string :=
  ["button_left"; "button_up"; "button_right"; "button_down";
   "button_confirm"].

(** The button [id] of a map view is disabled. *)
Definition disabled_of (id : string) (self : Map.t) : bool :=
  existsb (fun b => String.eqb (Map.custom_id b) id && Map.disabled b)
    (Map.children self).

(** The text that names the level [key] under the map. *)
Definition hovering (key : string) : string :=
  "Hovering: " ++ key ++ Str.nl
  ++ "**Press <:check:1265079659448766506> to start level.**".

(** A small map: the squares (0,0), (1,0) and (1,-1). *)
Definition small_map : list (string * list (string * Z)) :=
  [("0", [("0", 0)]); ("1", [("0", 0); ("-1", 1)])].

(** A drawing that always succeeds, with the position as picture. *)
Definition sketch (position : Z * Z) (player_name : string)
    : result (Z * Z) :=
  Ok position.

(** A multiple choice question with three options. *)
Definition sum_question : MultipleChoiceQuestion.t :=
  MultipleChoiceQuestion.__init__ "What is 2 + 2?" ["Count."]
    [("a", "4"); ("b", "5"); ("c", "6")] "a".

(** * Properties *)

(** ** Strings *)

Section StringFacts.

Lemma append_assoc (a b c : string) : (a ++ b) ++ c = a ++ (b ++ c).
Proof.
  induction a as [|x a IH]; simpl; [reflexivity|].
  now rewrite IH.
Qed.

Lemma append_nil_r (a : string) : a ++ "" = a.
Proof.
  induction a as [|x a IH]; simpl; [reflexivity|].
  now rewrite IH.
Qed.

Lemma all_append (p : ascii -> bool) (a b : string) :
  Str.all p (a ++ b) = Str.all p a && Str.all p b.
Proof.
  induction a as [|x a IH]; simpl; [reflexivity|].
  now rewrite IH, andb_assoc.
Qed.

Lemma all_impl (p q : ascii -> bool) (s : string) :
  (forall c, p c = true -> q c = true) ->
  Str.all p s = true -> Str.all q s = true.
Proof.
  intros Hpq. induction s as [|x s IH]; simpl; [reflexivity|].
  rewrite !andb_true_iff. intros [Hx Hs]. auto.
Qed.

Lemma digit_not_space (c : ascii) :
  Str.is_digit c = true -> negb (Str.is_space c) = true.
Proof.
  unfold Str.is_digit, Str.is_space.
  generalize (Str.code c). intros n H.
  apply andb_true_iff in H. destruct H as [H1 H2].
  apply Z.leb_le in H1. apply Z.leb_le in H2.
  apply negb_true_iff.
  repeat (apply orb_false_iff; split);
    try (apply andb_false_iff;
         first [ left; apply Z.leb_gt; lia | right; apply Z.leb_gt; lia ]);
    apply Z.eqb_neq; lia.
Qed.

Lemma length_append (a b : string) :
  String.length (a ++ b) = (String.length a + String.length b)%nat.
Proof.
  induction a as [|x a IH]; simpl; [reflexivity|].
  now rewrite IH.
Qed.

(** Two ways to cut a text leave the same tail when the tails are as
    long. *)
Lemma append_same_tail (a b x y : string) :
  a ++ x = b ++ y -> String.length x = String.length y -> x = y.
Proof.
  revert b. induction a as [|c a IH]; intros [|d b] H Hlen; simpl in H.
  - exact H.
  - subst x. simpl in Hlen. rewrite length_append in Hlen. lia.
  - subst y. simpl in Hlen. rewrite length_append in Hlen. lia.
  - injection H as _ H. now apply (IH b).
Qed.

End StringFacts.

(** ** The matcher *)

Section MatcherFacts.

Lemma match_here_lit (w : string) (p : Re.pattern) (s : string) :
  Re.match_here (Re.lit w ++ p)%list s = true <->
  exists s', s = w ++ s' /\ Re.match_here p s' = true.
Proof.
  revert s. induction w as [|c w IH]; intros s; simpl.
  - split; [intros H; now exists s | intros (s' & -> & H); exact H].
  - destruct s as [|c0 s0].
    + split; [discriminate | intros (s' & Hs & _); discriminate].
    + rewrite andb_true_iff, IH. split.
      * intros (Hc & s' & -> & Hm).
        apply Ascii.eqb_eq in Hc. subst c0. now exists s'.
      * intros (s' & Hs & Hm). injection Hs as -> ->.
        split; [apply Ascii.eqb_refl | now exists s'].
Qed.

Lemma match_here_plus (k : Re.cclass) (p : Re.pattern) (s : string) :
  Re.match_here (Re.Plus k :: p) s = true <->
  exists w s', w <> "" /\ Str.all (Re.accepts k) w = true
               /\ s = w ++ s' /\ Re.match_here p s' = true.
Proof.
  induction s as [|c s IH].
  - simpl. split; [discriminate|].
    intros (w & s' & Hw & _ & Hs & _).
    destruct w; [now elim Hw | discriminate].
  - change (Re.match_here (Re.Plus k :: p) (String c s))
      with (Re.accepts k c
            && (Re.match_here (Re.Plus k :: p) s || Re.match_here p s)).
    rewrite andb_true_iff, orb_true_iff, IH. split.
    + intros (Hc & [(w & s' & Hw & Hall & -> & Hm) | Hm]).
      * exists (String c w), s'. simpl. rewrite Hc, Hall.
        repeat split; [discriminate | exact Hm].
      * exists (String c ""), s. simpl. rewrite Hc.
        repeat split; [discriminate | exact Hm].
    + intros (w & s' & Hw & Hall & Hs & Hm).
      destruct w as [|c' w]; [now elim Hw|].
      simpl in Hs, Hall. injection Hs as -> ->.
      apply andb_true_iff in Hall. destruct Hall as [Hc Hall].
      split; [exact Hc|].
      destruct w as [|c'' w].
      * right. exact Hm.
      * left. exists (String c'' w), s'.
        repeat split; [discriminate | exact Hall | exact Hm].
Qed.

Lemma match_here_dollar (s : string) :
  Re.match_here [Re.Dollar] s = true <-> s = "" \/ s = Str.nl.
Proof.
  simpl. rewrite andb_true_r, orb_true_iff, !String.eqb_eq. tauto.
Qed.

Lemma match_here_end_of_text (s : string) :
  Re.match_here [Re.EndOfText] s = true <-> s = "".
Proof.
  simpl. rewrite andb_true_r, String.eqb_eq. tauto.
Qed.

Lemma search_iff (p : Re.pattern) (s : string) :
  Re.search p s = true <->
  exists pre s', s = pre ++ s' /\ Re.match_here p s' = true.
Proof.
  induction s as [|c s IH]; simpl.
  - rewrite orb_false_r. split.
    + intros H. now exists "", "".
    + intros (pre & s' & Hs & Hm).
      destruct pre; [|discriminate]. simpl in Hs. now subst s'.
  - rewrite orb_true_iff, IH. split.
    + intros [H | (pre & s' & -> & Hm)].
      * now exists "", (String c s).
      * now exists (String c pre), s'.
    + intros (pre & s' & Hs & Hm). destruct pre as [|c' pre].
      * simpl in Hs. subst s'. now left.
      * injection Hs as -> ->. right. now exists pre, s'.
Qed.

End MatcherFacts.

(** ** The result classifier *)

Section Classifier.

(** What [check_test] accepts: a text that ends, up to one more line
    feed, with a success trailer whose elapsed time is any non-empty
    run of non-space characters. *)
Lemma check_test_search_iff (output : string) :
  Re.search check_test output = true <->
  exists pre tok,
    tok <> "" /\ Str.all (fun c => negb (Str.is_space c)) tok = true
    /\ (output = pre ++ success_trailer tok
        \/ output = pre ++ success_trailer tok ++ Str.nl).
Proof.
  unfold check_test. rewrite search_iff. split.
  - intros (pre & s & -> & Hm).
    apply match_here_lit in Hm. destruct Hm as (s1 & -> & Hm).
    apply match_here_plus in Hm.
    destruct Hm as (tok & s2 & Htok & Hall & -> & Hm).
    apply match_here_lit in Hm. destruct Hm as (s3 & -> & Hm).
    apply match_here_dollar in Hm.
    exists pre, tok. split; [exact Htok|]. split; [exact Hall|].
    unfold success_trailer.
    destruct Hm as [-> | ->]; [left | right];
      rewrite ?append_assoc; reflexivity.
  - intros (pre & tok & Htok & Hall & Hout).
    assert (Hm : forall rest, rest = "" \/ rest = Str.nl ->
              Re.match_here
                (Re.lit "Ran 1 test in " ++ [Re.Plus Re.NotSpace]
                 ++ Re.lit ("s" ++ Str.nl ++ Str.nl ++ "OK" ++ Str.nl)%string
                 ++ [Re.Dollar])%list
                (success_trailer tok ++ rest) = true).
    { intros rest Hrest. apply match_here_lit.
      exists (tok ++ ("s" ++ Str.nl ++ Str.nl ++ "OK" ++ Str.nl) ++ rest).
      split.
      - unfold success_trailer. rewrite ?append_assoc. reflexivity.
      - apply match_here_plus.
        exists tok, (("s" ++ Str.nl ++ Str.nl ++ "OK" ++ Str.nl) ++ rest).
        repeat split; [exact Htok | exact Hall|].
        apply match_here_lit. exists rest. split; [reflexivity|].
        now apply match_here_dollar. }
    destruct Hout as [-> | ->].
    + exists pre, (success_trailer tok). split; [reflexivity|].
      rewrite <- (append_nil_r (success_trailer tok)) at 1.
      apply Hm. now left.
    + exists pre, (success_trailer tok ++ Str.nl). split; [reflexivity|].
      apply Hm. now right.
Qed.

(** What the specification's pattern accepts. *)
Lemma spec_classifier_iff (output : string) :
  spec_classifier output = true <->
  exists pre int_part frac_part,
    int_part <> "" /\ Str.all Str.is_digit int_part = true
    /\ frac_part <> "" /\ Str.all Str.is_digit frac_part = true
    /\ output = pre ++ success_trailer (int_part ++ "." ++ frac_part).
Proof.
  unfold spec_classifier, spec_success_pattern. rewrite search_iff. split.
  - intros (pre & s & -> & Hm).
    apply match_here_lit in Hm. destruct Hm as (s1 & -> & Hm).
    apply match_here_plus in Hm.
    destruct Hm as (ip & s2 & Hip & Hipd & -> & Hm).
    apply (match_here_lit ".") in Hm. destruct Hm as (s3 & -> & Hm).
    apply match_here_plus in Hm.
    destruct Hm as (fp & s4 & Hfp & Hfpd & -> & Hm).
    apply match_here_lit in Hm. destruct Hm as (s5 & -> & Hm).
    apply match_here_end_of_text in Hm. subst s5.
    exists pre, ip, fp. repeat split; try assumption.
    unfold success_trailer. rewrite ?append_assoc. reflexivity.
  - intros (pre & ip & fp & Hip & Hipd & Hfp & Hfpd & ->).
    exists pre, (success_trailer (ip ++ "." ++ fp)). split; [reflexivity|].
    apply match_here_lit.
    exists (ip ++ "." ++ fp ++ "s" ++ Str.nl ++ Str.nl ++ "OK" ++ Str.nl).
    split; [unfold success_trailer; rewrite ?append_assoc; reflexivity|].
    apply match_here_plus.
    exists ip, ("." ++ fp ++ "s" ++ Str.nl ++ Str.nl ++ "OK" ++ Str.nl).
    repeat split; [exact Hip | exact Hipd|].
    apply (match_here_lit ".").
    exists (fp ++ "s" ++ Str.nl ++ Str.nl ++ "OK" ++ Str.nl).
    split; [reflexivity|].
    apply match_here_plus.
    exists fp, ("s" ++ Str.nl ++ Str.nl ++ "OK" ++ Str.nl).
    repeat split; assumption.
Qed.

(** A report that ends with the failure trailer is not accepted. *)
Lemma failure_trailer_rejected (pre elapsed : string) :
  Re.search check_test (pre ++ failure_trailer elapsed) = false.
Proof.
  destruct (Re.search check_test (pre ++ failure_trailer elapsed)) eqn:E;
    [exfalso | reflexivity].
  apply check_test_search_iff in E.
  destruct E as (pre' & tok & _ & _ & [E | E]);
    unfold failure_trailer, success_trailer in E.
  - assert (H : String ")" Str.nl = String "K" Str.nl).
    { apply (append_same_tail
               (pre ++ "Ran 1 test in " ++ elapsed ++ "s" ++ Str.nl
                ++ Str.nl ++ "FAILED (failures=1")
               (pre' ++ "Ran 1 test in " ++ tok ++ "s" ++ Str.nl
                ++ Str.nl ++ "O")); [|reflexivity].
      rewrite !append_assoc. exact E. }
    discriminate H.
  - assert (H : String ")" Str.nl = String Str.lf Str.nl).
    { apply (append_same_tail
               (pre ++ "Ran 1 test in " ++ elapsed ++ "s" ++ Str.nl
                ++ Str.nl ++ "FAILED (failures=1")
               (pre' ++ "Ran 1 test in " ++ tok ++ "s" ++ Str.nl
                ++ Str.nl ++ "OK")); [|reflexivity].
      rewrite !append_assoc in E. rewrite !append_assoc. exact E. }
    discriminate H.
Qed.

(** C1 (amended): the classifier returns true exactly for the texts that
    end, up to one more line feed, with the trailer
    [Ran 1 test in <token>s], a blank line and [OK] with its line feed,
    where the token is any non-empty run of non-space characters; every
    text that ends with the trailer of the specification (a decimal
    elapsed time) is among them; a text that ends with the failure
    trailer is classified false; and [check_response] returns the
    classification of whatever output the service returned. *)
Theorem classifier_accepts_token_trailer :
  (forall output,
      Re.search check_test output = true <->
      exists pre tok,
        tok <> "" /\ Str.all (fun c => negb (Str.is_space c)) tok = true
        /\ (output = pre ++ success_trailer tok
            \/ output = pre ++ success_trailer tok ++ Str.nl))
  /\ (forall output,
        spec_classifier output = true -> Re.search check_test output = true)
  /\ (forall pre elapsed,
        Re.search check_test (pre ++ failure_trailer elapsed) = false)
  /\ (forall eval_python self code program output,
        WriteCodeQuestion._get_test_string self code = Ok program ->
        eval_python program = Ok output ->
        WriteCodeQuestion.check_response eval_python self code
        = Ok (Re.search check_test output)).
Proof.
  split; [exact check_test_search_iff|].
  split; [|split; [exact failure_trailer_rejected|]].
  - intros output H. apply spec_classifier_iff in H.
    destruct H as (pre & ip & fp & Hip & Hipd & Hfp & Hfpd & ->).
    apply check_test_search_iff. exists pre, (ip ++ "." ++ fp).
    split; [destruct ip; [now elim Hip | discriminate]|].
    split; [|now left].
    rewrite all_append. apply andb_true_iff. split.
    + exact (all_impl _ _ _ digit_not_space Hipd).
    + simpl. exact (all_impl _ _ _ digit_not_space Hfpd).
  - intros eval_python self code program output Hp Ho.
    unfold WriteCodeQuestion.check_response. rewrite Hp. simpl.
    rewrite Ho. reflexivity.
Qed.

Lemma classifier_accepts_token_trailer_witness :
  (spec_classifier ("." ++ Str.nl ++ success_trailer "0.004") = true
   /\ Re.search check_test ("." ++ Str.nl ++ success_trailer "0.004")
      = true)
  /\ WriteCodeQuestion.check_response
       (fun _ => Ok (success_trailer "0.004")) add_question add_code
     = Ok (Re.search check_test (success_trailer "0.004")).
Proof.
  split.
  - split; [reflexivity|].
    apply (proj1 (proj2 classifier_accepts_token_trailer)). reflexivity.
  - apply (proj2 (proj2 (proj2 classifier_accepts_token_trailer))
             (fun _ => Ok (success_trailer "0.004")) add_question add_code
             add_program); reflexivity.
Defined.

(** C1, as stated, fails: a trailer whose elapsed time is not a decimal
    is classified true. *)
Lemma classifier_accepts_non_decimal :
  Re.search check_test (success_trailer "abc") = true
  /\ spec_classifier (success_trailer "abc") = false.
Proof. split; reflexivity. Qed.

(** The anchor [$] also lets one more line feed follow the trailer. *)
Lemma classifier_accepts_extra_line_feed :
  Re.search check_test (success_trailer "0.004" ++ Str.nl) = true
  /\ spec_classifier (success_trailer "0.004" ++ Str.nl) = false.
Proof. split; reflexivity. Qed.

End Classifier.

(** ** The harness builder *)

Section Harness.

(** The loop appends one assertion per test case, in their order. *)
Lemma collect_test_strings_map (cases : list str_dict)
    (ios : list (string * string)) (acc : list string) :
  Forall2 reads_as cases ios ->
  WriteCodeQuestion.collect_test_strings acc cases
  = Ok (acc ++ map (fun io =>
                      WriteCodeQuestion._get_assert_equal_string
                        (fst io) (snd io)) ios)%list.
Proof.
  intros H. revert acc.
  induction H as [|tc io cases ios [Hin Hout] _ IH]; intros acc; simpl.
  - now rewrite app_nil_r.
  - rewrite Hin, Hout. simpl. rewrite IH, <- app_assoc. reflexivity.
Qed.

(** A test case that lacks one of its two keys stops the builder. *)
Lemma collect_test_strings_key_error (acc : list string)
    (test_case : str_dict) (cases : list str_dict) :
  getitem test_case "input" = Raise (KeyError "input") ->
  WriteCodeQuestion.collect_test_strings acc (test_case :: cases)
  = Raise (KeyError "input").
Proof. intros H. simpl. now rewrite H. Qed.

Lemma get_test_string_shape (self : WriteCodeQuestion.t)
    (user_code : string) (test_strings : list string) :
  WriteCodeQuestion.collect_test_strings []
    (WriteCodeQuestion.test_cases self) = Ok test_strings ->
  WriteCodeQuestion._get_test_string self user_code
  = Ok (("import unittest" ++ Str.nl) ++ pre_code_text self
        ++ Str.expandtabs 2 user_code ++ test_class test_strings).
Proof.
  intros H. unfold WriteCodeQuestion._get_test_string. rewrite H.
  reflexivity.
Qed.

(** *** Tab expansion *)

Lemma expandtabs_from_tab_free (tabsize col : Z) (s : string) :
  tab_free s = true -> Str.expandtabs_from tabsize col s = s.
Proof.
  revert col. induction s as [|c s IH]; intros col H; simpl;
    [reflexivity|].
  unfold tab_free in H. simpl in H. apply andb_true_iff in H.
  destruct H as [Hc Hs]. apply negb_true_iff in Hc. rewrite Hc.
  f_equal. now apply IH.
Qed.

(** A tab at column [col] becomes two spaces when [col] is even and one
    space when it is odd. *)
Lemma expandtabs_from_tab (col : Z) (s : string) :
  Str.expandtabs_from 2 col (String Str.tab s)
  = if Z.even col
    then "  " ++ Str.expandtabs_from 2 (col + 2) s
    else " " ++ Str.expandtabs_from 2 (col + 1) s.
Proof.
  simpl. rewrite Zmod_even. destruct (Z.even col); reflexivity.
Qed.

Lemma expandtabs_from_no_tab (tabsize col : Z) (s : string) :
  0 < tabsize -> tab_free (Str.expandtabs_from tabsize col s) = true.
Proof.
  intros Hpos. revert col.
  induction s as [|c s IH]; intros col; simpl; [reflexivity|].
  destruct (Ascii.eqb c Str.tab) eqn:Ec.
  - apply Z.ltb_lt in Hpos. rewrite Hpos. unfold tab_free.
    rewrite all_append. apply andb_true_iff. split; [|apply IH].
    unfold Str.spaces. induction (Z.to_nat _) as [|n IHn]; simpl;
      [reflexivity | exact IHn].
  - unfold tab_free. simpl. rewrite Ec. simpl. apply IH.
Qed.

(** The column that the expansion keeps is the column at which its
    output ends. *)
Lemma column_from_spaces (col : Z) (n : nat) (s : string) :
  column_from col
    (string_of_list_ascii (repeat Str.space n) ++ s)
  = column_from (col + Z.of_nat n) s.
Proof.
  revert col. induction n as [|n IH]; intros col.
  - simpl. now rewrite Z.add_0_r.
  - cbn [repeat string_of_list_ascii append column_from].
    change (Ascii.eqb Str.space Str.lf || Ascii.eqb Str.space Str.cr)
      with false.
    cbv iota. rewrite IH. f_equal. lia.
Qed.

Lemma column_from_append (col : Z) (a b : string) :
  column_from col (a ++ b) = column_from (column_from col a) b.
Proof.
  revert col. induction a as [|c a IH]; intros col; simpl;
    [reflexivity | apply IH].
Qed.

Lemma expandtabs_from_append (tabsize col : Z) (a b : string) :
  0 < tabsize ->
  Str.expandtabs_from tabsize col (a ++ b)
  = Str.expandtabs_from tabsize col a
    ++ Str.expandtabs_from tabsize
         (column_from col (Str.expandtabs_from tabsize col a)) b.
Proof.
  intros Hpos. revert col. induction a as [|c a IH]; intros col.
  - reflexivity.
  - cbn [append Str.expandtabs_from].
    destruct (Ascii.eqb c Str.tab) eqn:Ec.
    + rewrite (proj2 (Z.ltb_lt 0 tabsize) Hpos).
      cbv zeta. rewrite IH, append_assoc. f_equal. f_equal.
      unfold Str.spaces. rewrite column_from_spaces.
      pose proof (Z.mod_pos_bound col tabsize Hpos) as Hmod.
      rewrite Z2Nat.id by lia. reflexivity.
    + cbn [append column_from]. rewrite IH. reflexivity.
Qed.

(** What the expansion does with the character that follows a text: a
    tab becomes two spaces when the expanded text ends at an even column
    and one space when it ends at an odd one; any other character is
    kept. *)
Lemma expandtabs_after_text_tab (before : string) :
  Str.expandtabs 2 (before ++ String Str.tab "")
  = Str.expandtabs 2 before
    ++ (if Z.even (column (Str.expandtabs 2 before)) then "  " else " ").
Proof.
  unfold Str.expandtabs, column.
  rewrite expandtabs_from_append by lia. f_equal.
  rewrite expandtabs_from_tab.
  destruct (Z.even _); reflexivity.
Qed.

Lemma expandtabs_after_text_char (before : string) (c : ascii) :
  c <> Str.tab ->
  Str.expandtabs 2 (before ++ String c "")
  = Str.expandtabs 2 before ++ String c "".
Proof.
  intros Hc. unfold Str.expandtabs.
  rewrite expandtabs_from_append by lia. f_equal.
  cbn [Str.expandtabs_from].
  destruct (Ascii.eqb_spec c Str.tab) as [E|_]; [contradiction|].
  reflexivity.
Qed.

(** After the spaces of a tab the expanded text ends at an even
    column. *)
Lemma expandtabs_tab_reaches_even (before : string) :
  Z.even (column (Str.expandtabs 2 (before ++ String Str.tab ""))) = true.
Proof.
  rewrite expandtabs_after_text_tab. unfold column.
  rewrite column_from_append.
  fold (column (Str.expandtabs 2 before)).
  destruct (Z.even (column (Str.expandtabs 2 before))) eqn:E.
  - change (column_from (column (Str.expandtabs 2 before)) "  ")
      with (column (Str.expandtabs 2 before) + 1 + 1).
    replace (column (Str.expandtabs 2 before) + 1 + 1)
      with (column (Str.expandtabs 2 before) + 2) by lia.
    now rewrite Z.even_add, E.
  - change (column_from (column (Str.expandtabs 2 before)) " ")
      with (column (Str.expandtabs 2 before) + 1).
    now rewrite Z.even_add, E.
Qed.

(** *** Lines *)

Lemma lines_not_nil (s : string) : Str.lines s <> [].
Proof.
  induction s as [|c s IH]; simpl; [discriminate|].
  destruct (Ascii.eqb c Str.lf); [discriminate|].
  destruct (Str.lines s); [now elim IH | discriminate].
Qed.

Lemma lines_append_nl (a b : string) :
  Str.lines (a ++ Str.nl ++ b) = (Str.lines a ++ Str.lines b)%list.
Proof.
  induction a as [|c a IH]; simpl.
  - reflexivity.
  - destruct (Ascii.eqb c Str.lf).
    + simpl in IH. rewrite IH. reflexivity.
    + simpl in IH. rewrite IH.
      destruct (Str.lines a) as [|l ls] eqn:E;
        [now elim (lines_not_nil a) | reflexivity].
Qed.

End Harness.

Section HarnessClaims.

(** C2 (amended): for every question whose test cases hold their two
    keys, the harness builder emits one assertion per test case, in the
    test cases' order, each of the exact form
    [self.assertEqual(<input>,<output>)] with both texts inserted as they
    are, joined by a line feed and two spaces inside the one test method;
    for the question and the submission of the example the program is
    [add_program], with the one assertion line
    [  self.assertEqual(add(1,2),3)] and the one test method. *)
Theorem harness_one_assertion_per_test_case :
  (forall self user_code ios,
      Forall2 reads_as (WriteCodeQuestion.test_cases self) ios ->
      WriteCodeQuestion._get_test_string self user_code
      = Ok (("import unittest" ++ Str.nl) ++ pre_code_text self
            ++ Str.expandtabs 2 user_code
            ++ test_class
                 (map (fun io =>
                         "self.assertEqual(" ++ fst io ++ "," ++ snd io
                         ++ ")") ios)))
  /\ WriteCodeQuestion._get_test_string add_question add_code
     = Ok add_program
  /\ filter (Str.contains "assertEqual") (Str.lines add_program)
     = ["  self.assertEqual(add(1,2),3)"]
  /\ filter (Str.contains "def test") (Str.lines add_program)
     = [" def test_cases(self):"].
Proof.
  split; [|repeat split; reflexivity].
  intros self user_code ios H.
  apply get_test_string_shape.
  now rewrite (collect_test_strings_map _ ios).
Qed.

Lemma harness_one_assertion_per_test_case_witness :
  Forall2 reads_as (WriteCodeQuestion.test_cases add_question)
    [("add(1,2)", "3")]
  /\ WriteCodeQuestion._get_test_string add_question tabbed_code
     = Ok (("import unittest" ++ Str.nl) ++ "a b"
           ++ test_class ["self.assertEqual(add(1,2),3)"]).
Proof.
  assert (H : Forall2 reads_as (WriteCodeQuestion.test_cases add_question)
                [("add(1,2)", "3")]).
  { repeat constructor. }
  split; [exact H|].
  exact (proj1 harness_one_assertion_per_test_case add_question tabbed_code
           [("add(1,2)", "3")] H).
Defined.

(** C2, as stated, fails: the program of the example has no
    [assertEquality(add(1,2),3)]. *)
Lemma harness_has_no_assertEquality :
  exists program,
    WriteCodeQuestion._get_test_string add_question add_code = Ok program
    /\ Str.contains (spec_assert_string "add(1,2)" "3") program = false
    /\ Str.contains "assertEquality" program = false.
Proof. exists add_program. repeat split; reflexivity. Qed.

(** C3 (amended): the harness builder returns one program text made, in
    this order, of the import line, the question's [pre_code] when it has
    one, inserted as it is, the candidate code with its tabs expanded as
    [str.expandtabs(2)] does, the test class with its one test method
    and the assertions, and the call that runs the tests.  The candidate
    code is expanded from left to right: a character that is not a tab is
    kept, and a tab becomes two spaces when the expanded text before it
    ends at an even column of its line and one space when it ends at an
    odd column, so that the text then ends at an even column; the
    expanded code has no tab, and a tab-free submission is inserted
    unchanged. *)
Theorem harness_structure :
  (forall self user_code test_strings,
      WriteCodeQuestion.collect_test_strings []
        (WriteCodeQuestion.test_cases self) = Ok test_strings ->
      WriteCodeQuestion._get_test_string self user_code
      = Ok (("import unittest" ++ Str.nl) ++ pre_code_text self
            ++ Str.expandtabs 2 user_code
            ++ (Str.nl ++ "class Test(unittest.TestCase):" ++ Str.nl)
            ++ " def test_cases(self):"
            ++ (Str.nl ++ "  ")
            ++ Str.join (Str.nl ++ "  ") test_strings
            ++ (Str.nl ++ "unittest.main()")))
  /\ (forall user_code,
        tab_free user_code = true -> Str.expandtabs 2 user_code = user_code)
  /\ (forall user_code, tab_free (Str.expandtabs 2 user_code) = true)
  /\ (forall col rest,
        Str.expandtabs_from 2 col (String Str.tab rest)
        = if Z.even col
          then "  " ++ Str.expandtabs_from 2 (col + 2) rest
          else " " ++ Str.expandtabs_from 2 (col + 1) rest)
  /\ Str.expandtabs 2 "" = ""
  /\ (forall before,
        Str.expandtabs 2 (before ++ String Str.tab "")
        = Str.expandtabs 2 before
          ++ (if Z.even (column (Str.expandtabs 2 before))
              then "  " else " "))
  /\ (forall before c,
        c <> Str.tab ->
        Str.expandtabs 2 (before ++ String c "")
        = Str.expandtabs 2 before ++ String c "")
  /\ (forall before,
        Z.even (column (Str.expandtabs 2 (before ++ String Str.tab "")))
        = true).
Proof.
  split; [exact get_test_string_shape|].
  split; [intros c H; now apply expandtabs_from_tab_free|].
  split; [intros c; now apply expandtabs_from_no_tab|].
  split; [exact expandtabs_from_tab|].
  split; [reflexivity|].
  split; [exact expandtabs_after_text_tab|].
  split; [exact expandtabs_after_text_char | exact expandtabs_tab_reaches_even].
Qed.

Lemma harness_structure_witness :
  (WriteCodeQuestion.collect_test_strings []
     (WriteCodeQuestion.test_cases add_question)
   = Ok ["self.assertEqual(add(1,2),3)"]
   /\ WriteCodeQuestion._get_test_string add_question tabbed_code
      = Ok (("import unittest" ++ Str.nl) ++ "a b"
            ++ test_class ["self.assertEqual(add(1,2),3)"]))
  /\ (tab_free add_code = true /\ Str.expandtabs 2 add_code = add_code)
  /\ Str.expandtabs 2 ("a" ++ String Str.tab "") = "a "
  /\ Str.expandtabs 2 ("ab" ++ String Str.tab "") = "ab  "
  /\ Str.expandtabs 2 (("a" ++ Str.nl) ++ String Str.tab "")
     = ("a" ++ Str.nl) ++ "  "
  /\ ("b"%char <> Str.tab
      /\ Str.expandtabs 2 (("a" ++ String Str.tab "") ++ String "b" "")
         = "a b").
Proof.
  split; [split; [reflexivity|]|].
  - exact (proj1 harness_structure add_question tabbed_code
             ["self.assertEqual(add(1,2),3)"] eq_refl).
  - split; [split; [reflexivity|]|].
    + exact (proj1 (proj2 harness_structure) add_code eq_refl).
    + split; [|split; [|split]].
      * exact (proj1 (proj2 (proj2 (proj2 (proj2 (proj2 harness_structure)))))
                 "a").
      * exact (proj1 (proj2 (proj2 (proj2 (proj2 (proj2 harness_structure)))))
                 "ab").
      * exact (proj1 (proj2 (proj2 (proj2 (proj2 (proj2 harness_structure)))))
                 ("a" ++ Str.nl)).
      * assert (H : "b"%char <> Str.tab) by discriminate.
        split; [exact H|].
        exact (proj1 (proj2 (proj2 (proj2 (proj2 (proj2 (proj2
                 harness_structure))))))
                 ("a" ++ String Str.tab "") "b"%char H).
Defined.

(** C3, as stated, fails: a tab at an odd column becomes one space, not
    two. *)
Lemma harness_tab_becomes_one_space :
  WriteCodeQuestion._get_test_string add_question tabbed_code
  = Ok (("import unittest" ++ Str.nl) ++ "a b"
        ++ test_class ["self.assertEqual(add(1,2),3)"])
  /\ spec_expand_tabs tabbed_code = "a  b"
  /\ WriteCodeQuestion._get_test_string add_question tabbed_code
     <> Ok (("import unittest" ++ Str.nl) ++ spec_expand_tabs tabbed_code
            ++ test_class ["self.assertEqual(add(1,2),3)"]).
Proof. split; [reflexivity | split; [reflexivity | discriminate]]. Qed.

(** C10: when a question has no test case, the harness has no assertion:
    the loop collects none, and the program ends with the line of the
    test-method header, a line of exactly two spaces and the line that
    runs the tests. *)
Theorem harness_without_test_cases :
  forall self user_code,
    WriteCodeQuestion.test_cases self = [] ->
    WriteCodeQuestion.collect_test_strings []
      (WriteCodeQuestion.test_cases self) = Ok []
    /\ exists program,
        WriteCodeQuestion._get_test_string self user_code = Ok program
        /\ program
           = (("import unittest" ++ Str.nl) ++ pre_code_text self
              ++ Str.expandtabs 2 user_code)
             ++ Str.nl ++ "class Test(unittest.TestCase):"
             ++ Str.nl ++ " def test_cases(self):"
             ++ Str.nl ++ "  "
             ++ Str.nl ++ "unittest.main()"
        /\ Str.lines program
           = (Str.lines (("import unittest" ++ Str.nl)
                         ++ pre_code_text self
                         ++ Str.expandtabs 2 user_code)
              ++ ["class Test(unittest.TestCase):";
                  " def test_cases(self):"; "  "; "unittest.main()"])%list
        /\ Str.contains "assertEqual" (test_class []) = false.
Proof.
  intros self user_code Hnil. rewrite Hnil. split; [reflexivity|].
  eexists. split.
  - apply get_test_string_shape. rewrite Hnil. reflexivity.
  - assert (E : ("import unittest" ++ Str.nl) ++ pre_code_text self
                ++ Str.expandtabs 2 user_code ++ test_class []
                = (("import unittest" ++ Str.nl) ++ pre_code_text self
                   ++ Str.expandtabs 2 user_code)
                  ++ Str.nl ++ "class Test(unittest.TestCase):"
                  ++ Str.nl ++ " def test_cases(self):"
                  ++ Str.nl ++ "  "
                  ++ Str.nl ++ "unittest.main()").
    { rewrite !append_assoc. reflexivity. }
    rewrite E. split; [reflexivity|]. split; [|reflexivity].
    rewrite lines_append_nl. reflexivity.
Qed.

Lemma harness_without_test_cases_witness :
  WriteCodeQuestion.test_cases
    (WriteCodeQuestion.__init__ "Name it." [] [] (Some "x = ")) = []
  /\ exists program,
      WriteCodeQuestion._get_test_string
        (WriteCodeQuestion.__init__ "Name it." [] [] (Some "x = ")) "1"
      = Ok program
      /\ Str.lines program
         = ["import unittest"; "x = 1"; "class Test(unittest.TestCase):";
            " def test_cases(self):"; "  "; "unittest.main()"].
Proof.
  split; [reflexivity|].
  destruct (harness_without_test_cases
              (WriteCodeQuestion.__init__ "Name it." [] [] (Some "x = "))
              "1" eq_refl) as (_ & program & Hp & _ & Hl & _).
  exists program. split; [exact Hp|]. rewrite Hl. reflexivity.
Defined.

End HarnessClaims.

(** ** Hints *)

Section Hints.

Lemma unlocked_hints_set (q : Question) (n : Z) :
  unlocked_hints (set_unlocked_hints q n) = n.
Proof. destruct q; reflexivity. Qed.

Lemma hints_set (q : Question) (n : Z) :
  hints (set_unlocked_hints q n) = hints q.
Proof. destruct q; reflexivity. Qed.

(** One press: no error, the hints stay, and the count moves by one
    below the number of hints and not at all otherwise. *)
Lemma get_a_hint_step (interaction : Interaction)
    (s : QuestionView.session Question) :
  fst (QuestionView.get_a_hint interaction s) = Ok tt
  /\ hint_total (snd (QuestionView.get_a_hint interaction s)) = hint_total s
  /\ unlocked (snd (QuestionView.get_a_hint interaction s))
     = if unlocked s <? hint_total s then unlocked s + 1 else unlocked s.
Proof.
  destruct s as [[q ni st stp] em].
  unfold unlocked, hint_total, QuestionView.get_a_hint.
  destruct q as [q|q]; cbn; destruct (_ <? _); cbn; auto.
Qed.

(** At the cap a press leaves the view, and the question in it, as they
    were. *)
Lemma get_a_hint_at_cap (interaction : Interaction)
    (s : QuestionView.session Question) :
  unlocked s = hint_total s ->
  QuestionView.view (snd (QuestionView.get_a_hint interaction s))
  = QuestionView.view s.
Proof.
  destruct s as [[q ni st stp] em].
  unfold unlocked, hint_total, QuestionView.get_a_hint.
  cbn [QuestionView.view QuestionView.question]. intros E.
  rewrite E, Z.ltb_irrefl. reflexivity.
Qed.

Lemma hint_requests_count (interactions : list Interaction)
    (s : QuestionView.session Question) :
  0 <= unlocked s <= hint_total s ->
  fst (hint_requests interactions s) = Ok tt
  /\ hint_total (snd (hint_requests interactions s)) = hint_total s
  /\ unlocked (snd (hint_requests interactions s))
     = Z.min (unlocked s + Z.of_nat (List.length interactions))
         (hint_total s).
Proof.
  revert s. induction interactions as [|i rest IH]; intros s Hs.
  - cbn [hint_requests fst snd List.length Z.of_nat].
    repeat split; lia.
  - destruct (get_a_hint_step i s) as (Hok & Htot & Hcnt).
    cbn [hint_requests].
    destruct (QuestionView.get_a_hint i s) as [[[]|e] s'];
      cbn [fst snd] in Hok, Htot, Hcnt; [|discriminate].
    assert (Hs' : 0 <= unlocked s' <= hint_total s').
    { rewrite Htot, Hcnt.
      destruct (Z.ltb_spec (unlocked s) (hint_total s)); lia. }
    destruct (IH s' Hs') as (H1 & H2 & H3).
    rewrite H1, H2, H3, Htot, Hcnt.
    split; [reflexivity|]. split; [reflexivity|].
    cbn [List.length]. rewrite Nat2Z.inj_succ.
    destruct (Z.ltb_spec (unlocked s) (hint_total s)); lia.
Qed.

(** C5: the unlocked-hint count of a question starts at 0; one hint
    request raises no error, leaves the hints as they are, and adds
    exactly one to the count when it is below the number of hints and
    nothing when it has reached it, so the count never decreases and
    never passes the number of hints; after N requests on a new question
    with H hints the count is min(N, H). *)
Theorem hint_count_is_min :
  (forall question hints options answer,
      unlocked_hints
        (MultipleChoice
           (MultipleChoiceQuestion.__init__ question hints options answer))
      = 0)
  /\ (forall question hints test_cases pre_code,
        unlocked_hints
          (WriteCode
             (WriteCodeQuestion.__init__ question hints test_cases
                pre_code))
        = 0)
  /\ (forall interaction (s : QuestionView.session Question),
        0 <= unlocked s <= hint_total s ->
        fst (QuestionView.get_a_hint interaction s) = Ok tt
        /\ hint_total (snd (QuestionView.get_a_hint interaction s))
           = hint_total s
        /\ unlocked (snd (QuestionView.get_a_hint interaction s))
           = (if unlocked s =? hint_total s then unlocked s
              else unlocked s + 1)
        /\ unlocked s
           <= unlocked (snd (QuestionView.get_a_hint interaction s))
           <= hint_total s
        /\ (unlocked s = hint_total s ->
            QuestionView.view (snd (QuestionView.get_a_hint interaction s))
            = QuestionView.view s))
  /\ (forall interactions (q : Question),
        unlocked_hints q = 0 ->
        fst (hint_requests interactions (QuestionView.start q)) = Ok tt
        /\ unlocked (snd (hint_requests interactions (QuestionView.start q)))
           = Z.min (Z.of_nat (List.length interactions))
               (Z.of_nat (List.length (hints q)))).
Proof.
  split; [reflexivity|]. split; [reflexivity|]. split.
  - intros i s Hs. destruct (get_a_hint_step i s) as (Hok & Htot & Hcnt).
    pose proof (get_a_hint_at_cap i s) as Hcap.
    rewrite Hok, Htot, Hcnt.
    destruct (Z.ltb_spec (unlocked s) (hint_total s));
      destruct (Z.eqb_spec (unlocked s) (hint_total s));
      repeat split; solve [lia | exact Hcap].
  - intros interactions q Hq.
    assert (Hs : 0 <= unlocked (QuestionView.start q)
                 <= hint_total (QuestionView.start q)).
    { unfold unlocked, hint_total, QuestionView.start.
      cbn [QuestionView.view QuestionView.question QuestionView.__init__].
      rewrite Hq. lia. }
    destruct (hint_requests_count interactions _ Hs) as (H1 & _ & H3).
    split; [exact H1|]. rewrite H3.
    unfold unlocked, hint_total, QuestionView.start.
    cbn [QuestionView.view QuestionView.question QuestionView.__init__].
    rewrite Hq. reflexivity.
Qed.

Lemma hint_count_is_min_witness :
  (unlocked_hints
     (WriteCode (WriteCodeQuestion.__init__ "Q" ["one"; "two"] [] None)) = 0
   /\ unlocked
        (snd (hint_requests [1; 2; 3]
                (QuestionView.start
                   (WriteCode
                      (WriteCodeQuestion.__init__ "Q" ["one"; "two"] []
                         None)))))
      = 2)
  /\ unlocked
       (snd (QuestionView.get_a_hint 1
               (QuestionView.start
                  (MultipleChoice
                     (MultipleChoiceQuestion.__init__ "Q" [] [] "a")))))
     = 0.
Proof.
  split.
  - split; [reflexivity|].
    exact (proj2 (proj2 (proj2 (proj2 hint_count_is_min)) [1; 2; 3]
                    (WriteCode
                       (WriteCodeQuestion.__init__ "Q" ["one"; "two"] []
                          None))
                    eq_refl)).
  - refine (proj1 (proj2 (proj2
              (proj1 (proj2 (proj2 hint_count_is_min)) 1
                 (QuestionView.start
                    (MultipleChoice
                       (MultipleChoiceQuestion.__init__ "Q" [] [] "a")))
                 _)))).
    unfold unlocked, hint_total. simpl. lia.
Defined.

End Hints.

(** ** Grading a submission when the service fails *)

Section ServiceFailure.

Variable eval_python : string -> result string.

Lemma check_response_raises (self : WriteCodeQuestion.t)
    (code program : string) (e : exn) :
  WriteCodeQuestion._get_test_string self code = Ok program ->
  eval_python program = Raise e ->
  WriteCodeQuestion.check_response eval_python self code = Raise e.
Proof.
  intros Hp He. unfold WriteCodeQuestion.check_response.
  rewrite Hp. simpl. rewrite He. reflexivity.
Qed.

Lemma submit_button_raises (interaction submit_interaction : Interaction)
    (code program : string) (e : exn)
    (s : QuestionView.session WriteCodeQuestion.t) :
  WriteCodeQuestion._get_test_string
    (QuestionView.question (QuestionView.view s)) code = Ok program ->
  eval_python program = Raise e ->
  WriteCodeQuestionView.submit_button eval_python interaction
    (Some (submit_interaction, code)) s
  = (Raise e,
     {| QuestionView.view := QuestionView.view s;
        QuestionView.emitted :=
          (QuestionView.emitted s ++ [send_modal interaction])%list |}).
Proof.
  intros Hp He.
  unfold WriteCodeQuestionView.submit_button, QuestionView.seq,
    QuestionView.emit, QuestionView.lift.
  cbn [QuestionView.view QuestionView.emitted].
  rewrite (check_response_raises _ _ _ _ Hp He). reflexivity.
Qed.

End ServiceFailure.

(** C4 (amended): when the call to the code evaluation service fails
    while a submission is graded, [check_response] raises that failure
    instead of returning false, and [submit_button] raises it too: the
    view is left as it was, so a session in progress stays IN_PROGRESS and
    the failure is not recorded as an incorrect answer, and the only event
    of the call is the modal it opened: no message is sent to the user. *)
Theorem service_failure_propagates :
  forall eval_python interaction submit_interaction code program e
         (s : QuestionView.session WriteCodeQuestion.t),
    WriteCodeQuestion._get_test_string
      (QuestionView.question (QuestionView.view s)) code = Ok program ->
    eval_python program = Raise e ->
    WriteCodeQuestion.check_response eval_python
      (QuestionView.question (QuestionView.view s)) code = Raise e
    /\ WriteCodeQuestionView.submit_button eval_python interaction
         (Some (submit_interaction, code)) s
       = (Raise e,
          {| QuestionView.view := QuestionView.view s;
             QuestionView.emitted :=
               (QuestionView.emitted s ++ [send_modal interaction])%list |})
    /\ QuestionView.status
         (QuestionView.view
            (snd (WriteCodeQuestionView.submit_button eval_python interaction
                    (Some (submit_interaction, code)) s)))
       = QuestionView.status (QuestionView.view s)
    /\ filter is_message
         (QuestionView.emitted
            (snd (WriteCodeQuestionView.submit_button eval_python interaction
                    (Some (submit_interaction, code)) s)))
       = filter is_message (QuestionView.emitted s).
Proof.
  intros eval_python i si code program e s Hp He.
  split; [exact (check_response_raises eval_python _ _ _ _ Hp He)|].
  rewrite (submit_button_raises eval_python i si code program e s Hp He).
  split; [reflexivity|]. split; [reflexivity|].
  cbn [snd QuestionView.emitted]. rewrite filter_app. simpl.
  now rewrite app_nil_r.
Qed.

Lemma service_failure_propagates_witness :
  (WriteCodeQuestion._get_test_string add_question add_code = Ok add_program
   /\ unreachable add_program = Raise (External "ClientConnectionError"))
  /\ QuestionView.status
       (QuestionView.view
          (snd (WriteCodeQuestionView.submit_button unreachable 1
                  (Some (2, add_code)) (QuestionView.start add_question))))
     = IN_PROGRESS.
Proof.
  split; [split; reflexivity|].
  exact (proj1 (proj2 (proj2
           (service_failure_propagates unreachable 1 2 add_code add_program
              (External "ClientConnectionError")
              (QuestionView.start add_question) eq_refl eq_refl)))).
Defined.

(** C4, as stated, fails: with the service out of reach the session sends
    the user no message at all, so no retry signal either. *)
Lemma service_failure_sends_no_message :
  WriteCodeQuestionView.submit_button unreachable 1 (Some (2, add_code))
    (QuestionView.start add_question)
  = (Raise (External "ClientConnectionError"),
     {| QuestionView.view := QuestionView.__init__ add_question;
        QuestionView.emitted := [send_modal 1] |})
  /\ existsb is_message
       (QuestionView.emitted
          (snd (WriteCodeQuestionView.submit_button unreachable 1
                  (Some (2, add_code)) (QuestionView.start add_question))))
     = false.
Proof. split; reflexivity. Qed.

(** ** The level registry *)

Section Registry.

Lemma position_eqb_eq (p q : Z * Z) : position_eqb p q = true <-> p = q.
Proof.
  destruct p as [a b], q as [c d]. unfold position_eqb. simpl.
  rewrite andb_true_iff, !Z.eqb_eq. split.
  - intros [-> ->]. reflexivity.
  - intros H. injection H as -> ->. now split.
Qed.

Lemma existsb_position (p : Z * Z) (ps : list (Z * Z)) :
  existsb (position_eqb p) ps = true <-> In p ps.
Proof.
  rewrite existsb_exists. split.
  - intros (q & Hq & E). apply position_eqb_eq in E. now subst q.
  - intros H. exists p. split; [exact H | now apply position_eqb_eq].
Qed.

Lemma mem_iff (k : Z) (d : list (Z * Level.t)) :
  Dict.mem Z.eqb k d = true <-> In k (map fst d).
Proof.
  unfold Dict.mem. induction d as [|[k' v] d IH]; simpl.
  - split; [discriminate | tauto].
  - destruct (Z.eqb_spec k k') as [->|Hne].
    + split; auto.
    + rewrite IH. split; [auto | intros [E | H]; [now elim Hne | exact H]].
Qed.

Lemma set_fresh (k : Z) (v : Level.t) (d : list (Z * Level.t)) :
  Dict.mem Z.eqb k d = false -> Dict.set Z.eqb d k v = (d ++ [(k, v)])%list.
Proof.
  unfold Dict.mem. induction d as [|[k' v'] d IH]; simpl; [reflexivity|].
  destruct (k =? k'); [discriminate|].
  intros H. now rewrite IH.
Qed.

(** What [add_level] does, by the two tests it makes. *)
Lemma add_level_cases (self : Controller.t) (level : Level.t) :
  (In (Level.id level) (map fst (Controller.levels self))
   /\ Controller.add_level self level
      = (Raise (ValueError (Some "User has completed the level")), self))
  \/ (~ In (Level.id level) (map fst (Controller.levels self))
      /\ In (Level.map_position level)
           (map Level.map_position (registered self))
      /\ Controller.add_level self level = (Raise (ValueError None), self))
  \/ (~ In (Level.id level) (map fst (Controller.levels self))
      /\ ~ In (Level.map_position level)
             (map Level.map_position (registered self))
      /\ Controller.add_level self level
         = (Ok tt,
            {| Controller.levels :=
                 (Controller.levels self
                  ++ [(Level.id level, level)])%list |})).
Proof.
  unfold Controller.add_level, registered.
  destruct (Dict.mem Z.eqb (Level.id level) (Controller.levels self))
    eqn:Hmem.
  - left. split; [now apply mem_iff | reflexivity].
  - right.
    assert (Hid : ~ In (Level.id level) (map fst (Controller.levels self))).
    { intros H. apply mem_iff in H. congruence. }
    destruct (existsb (position_eqb (Level.map_position level))
                (map Level.map_position
                   (Dict.values (Controller.levels self)))) eqn:Hpos.
    + left. split; [exact Hid|].
      split; [now apply existsb_position | reflexivity].
    + right. split; [exact Hid|]. split.
      * intros H. apply existsb_position in H. congruence.
      * now rewrite set_fresh.
Qed.

Lemma NoDup_snoc {A : Type} (l : list A) (a : A) :
  NoDup l -> ~ In a l -> NoDup (l ++ [a]).
Proof.
  induction l as [|x l IH]; simpl; intros Hnd Hna.
  - constructor; [tauto | constructor].
  - inversion Hnd as [|? ? Hx Hl]; subst. constructor.
    + rewrite in_app_iff. simpl. intros [H | [H | []]]; [tauto|].
      apply Hna. now left.
    + apply IH; [exact Hl | tauto].
Qed.

Lemma registry_well_keyed (self : Controller.t) :
  registry self -> well_keyed self.
Proof.
  induction 1 as [|self level _ IH].
  - repeat split; constructor.
  - destruct IH as (Hk & Hid & Hpos).
    destruct (add_level_cases self level)
      as [(_ & E) | [(_ & _ & E) | (Hnid & Hnpos & E)]];
      rewrite E; cbn [snd]; [now repeat split .. |].
    unfold well_keyed, registered, Dict.values in *.
    cbn [Controller.levels].
    rewrite !map_app. cbn [map fst snd]. rewrite Hk in *.
    split; [reflexivity|].
    split; now apply NoDup_snoc.
Qed.

Lemma NoDup_map_injective {A B : Type} (f : A -> B) (l : list A)
    (x y : A) :
  NoDup (map f l) -> In x l -> In y l -> f x = f y -> x = y.
Proof.
  induction l as [|a l IH]; simpl; [tauto|].
  intros Hnd Hx Hy E. inversion Hnd as [|? ? Hna Hnd']; subst.
  destruct Hx as [-> | Hx], Hy as [-> | Hy].
  - reflexivity.
  - elim Hna. rewrite E. now apply in_map.
  - elim Hna. rewrite <- E. now apply in_map.
  - now apply IH.
Qed.

End Registry.

Section RegistryClaims.

Lemma in_registered_key (self : Controller.t) (l : Level.t) :
  well_keyed self -> In l (registered self) ->
  In (Level.id l) (map fst (Controller.levels self)).
Proof.
  intros (Hk & _ & _) H. rewrite Hk. now apply in_map.
Qed.

(** C7: [add_level] raises [ValueError] when the id of the level is the
    id of a registered level, raises [ValueError] when its map position
    is the map position of a registered level, and leaves the controller
    as it was in both cases; otherwise it returns with the level added
    after the registered ones and nothing else changed.  So when a level
    has been registered, registering a level with the same id or the
    same map position raises. *)
Theorem add_level_rejects_duplicates :
  (forall self level,
      registry self ->
      (exists l, In l (registered self) /\ Level.id l = Level.id level) ->
      Controller.add_level self level
      = (Raise (ValueError (Some "User has completed the level")), self))
  /\ (forall self level,
        registry self ->
        (exists l, In l (registered self)
                   /\ Level.map_position l = Level.map_position level) ->
        exists msg,
          Controller.add_level self level = (Raise (ValueError msg), self))
  /\ (forall self level,
        registry self ->
        (forall l, In l (registered self) ->
                   Level.id l <> Level.id level
                   /\ Level.map_position l <> Level.map_position level) ->
        Controller.add_level self level
        = (Ok tt,
           {| Controller.levels :=
                (Controller.levels self ++ [(Level.id level, level)])%list
           |}))
  /\ (forall self l1 l2 self1,
        Controller.add_level self l1 = (Ok tt, self1) ->
        Level.id l1 = Level.id l2
        \/ Level.map_position l1 = Level.map_position l2 ->
        exists msg,
          Controller.add_level self1 l2 = (Raise (ValueError msg), self1)).
Proof.
  split; [|split; [|split]].
  - intros self level Hreg (l & Hin & Hid).
    apply registry_well_keyed in Hreg.
    pose proof (in_registered_key self l Hreg Hin) as Hkey.
    rewrite Hid in Hkey.
    destruct (add_level_cases self level)
      as [(_ & E) | [(Hn & _) | (Hn & _)]];
      [exact E | now elim Hn | now elim Hn].
  - intros self level Hreg (l & Hin & Hpos).
    assert (Hp : In (Level.map_position level)
                   (map Level.map_position (registered self))).
    { rewrite <- Hpos. now apply in_map. }
    destruct (add_level_cases self level)
      as [(_ & E) | [(_ & _ & E) | (_ & Hn & _)]];
      [eexists; exact E | eexists; exact E | now elim Hn].
  - intros self level Hreg Hfresh.
    apply registry_well_keyed in Hreg. destruct Hreg as (Hk & _ & _).
    destruct (add_level_cases self level)
      as [(Hi & _) | [(_ & Hi & _) | (_ & _ & E)]]; [| |exact E].
    + rewrite Hk in Hi. apply in_map_iff in Hi.
      destruct Hi as (l & E & Hl). now elim (proj1 (Hfresh l Hl)).
    + apply in_map_iff in Hi.
      destruct Hi as (l & E & Hl). now elim (proj2 (Hfresh l Hl)).
  - intros self l1 l2 self1 Hadd Heq.
    destruct (add_level_cases self l1)
      as [(_ & E) | [(_ & _ & E) | (_ & _ & E)]];
      rewrite E in Hadd; try discriminate.
    injection Hadd as <-.
    destruct (add_level_cases
                {| Controller.levels :=
                     (Controller.levels self ++ [(Level.id l1, l1)])%list |}
                l2)
      as [(_ & E2) | [(_ & _ & E2) | (Hnid & Hnpos & _)]];
      [eexists; exact E2 | eexists; exact E2 | exfalso].
    unfold registered, Dict.values in Hnpos.
    cbn [Controller.levels] in Hnid, Hnpos.
    rewrite !map_app, !in_app_iff in *. simpl in Hnid, Hnpos.
    destruct Heq as [Heq | Heq]; rewrite Heq in *; tauto.
Qed.

Lemma add_level_rejects_duplicates_witness :
  (registry two_levels
   /\ (exists l, In l (registered two_levels)
                 /\ Level.id l = Level.id level_1))
  /\ Controller.add_level two_levels level_1
     = (Raise (ValueError (Some "User has completed the level")),
        two_levels).
Proof.
  assert (Hreg : registry two_levels).
  { apply registry_add. apply registry_add. apply registry_new. }
  assert (Hex : exists l, In l (registered two_levels)
                          /\ Level.id l = Level.id level_1).
  { exists level_1. split; [left; reflexivity | reflexivity]. }
  split; [split; [exact Hreg | exact Hex]|].
  exact (proj1 add_level_rejects_duplicates two_levels level_1 Hreg Hex).
Defined.

Lemma find_position_some (position : Z * Z) (ls : list Level.t)
    (level : Level.t) :
  Controller.find_position position ls = Some level <->
  exists before after,
    ls = (before ++ level :: after)%list
    /\ Level.map_position level = position
    /\ Forall (fun l => Level.map_position l <> position) before.
Proof.
  induction ls as [|l ls IH]; simpl.
  - split; [discriminate|].
    intros ([|] & after & H & _); discriminate.
  - destruct (position_eqb (Level.map_position l) position) eqn:E.
    + apply position_eqb_eq in E. split.
      * intros H. injection H as <-. exists [], ls. now repeat split.
      * intros ([|b before] & after & Hls & Hpos & Hbefore).
        -- simpl in Hls. now injection Hls as <- _.
        -- simpl in Hls. injection Hls as <- _.
           inversion Hbefore; subst. contradiction.
    + assert (Hne : Level.map_position l <> position).
      { intros H. apply position_eqb_eq in H. congruence. }
      rewrite IH. split.
      * intros (before & after & -> & Hpos & Hbefore).
        exists (l :: before), after. repeat split; auto.
      * intros ([|b before] & after & Hls & Hpos & Hbefore).
        -- simpl in Hls. injection Hls as <- _. contradiction.
        -- simpl in Hls. injection Hls as <- ->.
           inversion Hbefore; subst. now exists before, after.
Qed.

Lemma find_position_none (position : Z * Z) (ls : list Level.t) :
  Controller.find_position position ls = None <->
  Forall (fun l => Level.map_position l <> position) ls.
Proof.
  induction ls as [|l ls IH]; simpl.
  - split; [constructor | reflexivity].
  - destruct (position_eqb (Level.map_position l) position) eqn:E.
    + apply position_eqb_eq in E. split; [discriminate|].
      intros H. inversion H; subst. contradiction.
    + rewrite IH. split.
      * intros H. constructor; [|exact H].
        intros H'. apply position_eqb_eq in H'. congruence.
      * intros H. now inversion H.
Qed.

(** C9: [get_level_map] goes through the registered levels in order and
    returns the first one whose map position is the argument; it raises
    [ValueError] exactly when no registered level has that position;
    and among levels that registration put there no two share a
    position, so the level returned is the only one at that position. *)
Theorem get_level_map_first_match :
  (forall self position level,
      Controller.get_level_map self position = Ok level <->
      exists before after,
        registered self = (before ++ level :: after)%list
        /\ Level.map_position level = position
        /\ Forall (fun l => Level.map_position l <> position) before)
  /\ (forall self position,
        Controller.get_level_map self position = Raise (ValueError None)
        <-> Forall (fun l => Level.map_position l <> position)
              (registered self))
  /\ (forall self l1 l2,
        registry self ->
        In l1 (registered self) -> In l2 (registered self) ->
        Level.map_position l1 = Level.map_position l2 -> l1 = l2)
  /\ (forall self level,
        registry self -> In level (registered self) ->
        Controller.get_level_map self (Level.map_position level)
        = Ok level).
Proof.
  assert (Huniq : forall self l1 l2,
             registry self ->
             In l1 (registered self) -> In l2 (registered self) ->
             Level.map_position l1 = Level.map_position l2 -> l1 = l2).
  { intros self l1 l2 Hreg H1 H2 E.
    apply registry_well_keyed in Hreg. destruct Hreg as (_ & _ & Hnd).
    exact (NoDup_map_injective _ _ _ _ Hnd H1 H2 E). }
  split; [|split; [|split; [exact Huniq|]]].
  - intros self position level. unfold Controller.get_level_map.
    rewrite <- find_position_some. fold (registered self).
    destruct (Controller.find_position position (registered self));
      split; congruence.
  - intros self position. unfold Controller.get_level_map.
    rewrite <- find_position_none. fold (registered self).
    destruct (Controller.find_position position (registered self));
      split; congruence.
  - intros self level Hreg Hin. unfold Controller.get_level_map.
    fold (registered self).
    destruct (Controller.find_position (Level.map_position level)
                (registered self)) as [l|] eqn:E.
    + apply find_position_some in E.
      destruct E as (before & after & Hls & Hpos & _).
      f_equal. apply (Huniq self); auto.
      rewrite Hls. apply in_elt.
    + apply find_position_none in E.
      rewrite Forall_forall in E. now elim (E level Hin).
Qed.

Lemma get_level_map_first_match_witness :
  (registry two_levels /\ In level_2 (registered two_levels))
  /\ Controller.get_level_map two_levels (3, 0) = Ok level_2.
Proof.
  assert (Hreg : registry two_levels).
  { apply registry_add. apply registry_add. apply registry_new. }
  assert (Hin : In level_2 (registered two_levels)).
  { right. left. reflexivity. }
  split; [split; [exact Hreg | exact Hin]|].
  exact (proj2 (proj2 (proj2 get_level_map_first_match))
           two_levels level_2 Hreg Hin).
Defined.

End RegistryClaims.

Section PlayLevel.

Lemma run_each_recording (ls : list Level.t) (use_level : Z)
    (calls : list (Z * Z)) :
  Controller.run_each _ _ recording_run ls use_level calls
  = (Ok (map (fun _ => tt) ls),
     (calls ++ map (fun level => (Level.id level, use_level)) ls)%list).
Proof.
  revert calls. induction ls as [|l ls IH]; intros calls; simpl.
  - now rewrite app_nil_r.
  - rewrite IH, <- app_assoc. reflexivity.
Qed.

(** C6 (amended): [play_level] calls [run] on every registered level, in
    registration order, and hands each call the level id it was given;
    it stops at the first call that raises and raises the same; it does
    not raise by itself, whether or not a level has that id, and on a
    controller without levels it returns having called nothing. *)
Theorem play_level_runs_every_level :
  (forall (W R : Type) (run : Level.t -> Z -> W -> result R * W)
          use_level w,
      Controller.play_level W R run Controller.__init__ use_level w
      = (Ok tt, w))
  /\ (forall (W R : Type) (run : Level.t -> Z -> W -> result R * W)
            key level rest use_level w,
        Controller.play_level W R run
          {| Controller.levels := (key, level) :: rest |} use_level w
        = match run level use_level w with
          | (Ok _, w') =>
              Controller.play_level W R run {| Controller.levels := rest |}
                use_level w'
          | (Raise e, w') => (Raise e, w')
          end)
  /\ (forall self use_level calls,
        Controller.play_level _ _ recording_run self use_level calls
        = (Ok tt,
           (calls ++ map (fun level => (Level.id level, use_level))
                       (registered self))%list)).
Proof.
  split; [reflexivity|]. split.
  - intros W R run key level rest use_level w.
    unfold Controller.play_level. simpl.
    destruct (run level use_level w) as [[r|e] w']; [|reflexivity].
    destruct (Controller.run_each W R run (Dict.values rest) use_level w')
      as [[rs|e] w'']; reflexivity.
  - intros self use_level calls. unfold Controller.play_level.
    now rewrite run_each_recording.
Qed.

(** C6, as stated, fails: asked to play level 1, the controller runs
    level 2 as well; asked to play a level that is not registered, it
    runs both levels and raises nothing; and without levels it returns
    without raising. *)
Lemma play_level_runs_other_levels :
  Controller.play_level _ _ recording_run two_levels 1 []
  = (Ok tt, [(1, 1); (2, 1)])
  /\ Controller.play_level _ _ recording_run two_levels 7 []
     = (Ok tt, [(1, 7); (2, 7)])
  /\ Controller.play_level _ _ recording_run Controller.__init__ 1 []
     = (Ok tt, []).
Proof. repeat split. Qed.

End PlayLevel.

(** ** The question factory *)

Section Factory.

(** C8 (amended): [question_factory] dispatches on the keyword [type]:
    with ["multiple_choice"] it returns a multiple choice question made
    of [question], [hints], [options] and [answer]; with ["write_code"]
    a write code question made of [question], [hints], [test_cases] and
    [pre_code] when given; so a question it returns has the class its
    tag names.  Any other tag raises [ValueError].  A known tag without
    one of its required fields raises too, but [TypeError], from the
    call of the class; without [type] the factory raises [KeyError]. *)
Theorem question_factory_dispatch :
  (forall question hints options answer,
      question_factory (multiple_choice_data question hints options answer)
      = Ok (MultipleChoice
              (MultipleChoiceQuestion.__init__ question hints options
                 answer)))
  /\ (forall question hints test_cases pre_code,
        question_factory
          (write_code_data question hints test_cases pre_code)
        = Ok (WriteCode
                (WriteCodeQuestion.__init__ question hints test_cases
                   match pre_code with
                   | Some given => given
                   | None => None
                   end)))
  /\ (forall question_data q,
        question_factory question_data = Ok q ->
        kw_type question_data = Some (type q))
  /\ (forall question_data tag,
        kw_type question_data = Some tag ->
        tag <> "multiple_choice" -> tag <> "write_code" ->
        question_factory question_data = Raise (ValueError None))
  /\ (forall question_data,
        kw_type question_data = Some "multiple_choice" ->
        kw_question question_data = None \/ kw_hints question_data = None
        \/ kw_options question_data = None
        \/ kw_answer question_data = None ->
        question_factory question_data
        = Raise (TypeError "MultipleChoiceQuestion"))
  /\ (forall question_data,
        kw_type question_data = Some "write_code" ->
        kw_question question_data = None \/ kw_hints question_data = None
        \/ kw_test_cases question_data = None ->
        question_factory question_data
        = Raise (TypeError "WriteCodeQuestion"))
  /\ (forall question_data,
        kw_type question_data = None ->
        question_factory question_data = Raise (KeyError "type")).
Proof.
  split; [reflexivity|]. split; [intros ? ? ? [[|]|]; reflexivity|].
  split; [|split; [|split; [|split]]].
  - intros [ty qu hi op an tc pc ot] q. unfold question_factory, pop_type.
    cbn [kw_type]. destruct ty as [tag|]; [|discriminate]. cbn [bind].
    destruct (String.eqb_spec tag "multiple_choice") as [->|H1].
    + destruct (new_MultipleChoiceQuestion _); [|discriminate].
      intros H. injection H as <-. reflexivity.
    + destruct (String.eqb_spec tag "write_code") as [->|H2];
        [|discriminate].
      destruct (new_WriteCodeQuestion _); [|discriminate].
      intros H. injection H as <-. reflexivity.
  - intros [ty qu hi op an tc pc ot] tag Hty H1 H2.
    unfold question_factory, pop_type. cbn [kw_type] in *. subst ty.
    cbn [bind].
    apply String.eqb_neq in H1. apply String.eqb_neq in H2.
    now rewrite H1, H2.
  - intros [ty qu hi op an tc pc ot] Hty Hmiss. cbn in Hty, Hmiss.
    subst ty. unfold question_factory, pop_type, new_MultipleChoiceQuestion.
    cbn.
    destruct Hmiss as [-> | [-> | [-> | ->]]];
      repeat match goal with
             | |- context [match ?x with _ => _ end] => destruct x
             end; reflexivity.
  - intros [ty qu hi op an tc pc ot] Hty Hmiss. cbn in Hty, Hmiss.
    subst ty. unfold question_factory, pop_type, new_WriteCodeQuestion.
    cbn.
    destruct Hmiss as [-> | [-> | ->]];
      repeat match goal with
             | |- context [match ?x with _ => _ end] => destruct x
             end; reflexivity.
  - intros [ty qu hi op an tc pc ot] Hty. cbn in Hty. subst ty.
    reflexivity.
Qed.

Lemma question_factory_dispatch_witness :
  (kw_type bogus_data = Some "bogus"
   /\ question_factory bogus_data = Raise (ValueError None))
  /\ (kw_type incomplete_data = Some "multiple_choice"
      /\ question_factory incomplete_data
         = Raise (TypeError "MultipleChoiceQuestion"))
  /\ (question_factory no_keywords = Raise (KeyError "type")).
Proof.
  split; [split; [reflexivity|]|split; [split; [reflexivity|]|]].
  - refine (proj1 (proj2 (proj2 (proj2 question_factory_dispatch)))
              bogus_data "bogus" eq_refl _ _); discriminate.
  - refine (proj1 (proj2 (proj2 (proj2 (proj2 question_factory_dispatch))))
              incomplete_data eq_refl _).
    right. right. left. reflexivity.
  - exact (proj2 (proj2 (proj2 (proj2 (proj2 (proj2
             question_factory_dispatch))))) no_keywords eq_refl).
Defined.

(** C8, as stated, fails: a known tag without its required fields does
    not raise the error that an unknown tag raises. *)
Lemma missing_fields_raise_TypeError :
  question_factory incomplete_data
  = Raise (TypeError "MultipleChoiceQuestion")
  /\ question_factory bogus_data = Raise (ValueError None)
  /\ question_factory incomplete_data <> question_factory bogus_data.
Proof. split; [reflexivity | split; [reflexivity | discriminate]]. Qed.

End Factory.

(** * More of the code *)

(** ** Answering and quitting *)

Section Answers.

Lemma callback_equation (option_id : string) (interaction : Interaction)
    (s : QuestionView.session MultipleChoiceQuestion.t) :
  MultipleChoiceQuestionView.callback option_id interaction s
  = if String.eqb option_id
         (MultipleChoiceQuestion.answer
            (QuestionView.question (QuestionView.view s)))
    then (Ok tt,
          {| QuestionView.view :=
               {| QuestionView.question :=
                    QuestionView.question (QuestionView.view s);
                  QuestionView.next_question_interaction := Some interaction;
                  QuestionView.status := CORRECT;
                  QuestionView.stopped := true |};
             QuestionView.emitted :=
               (QuestionView.emitted s ++ [defer interaction])%list |})
    else (Ok tt,
          {| QuestionView.view :=
               {| QuestionView.question :=
                    QuestionView.question (QuestionView.view s);
                  QuestionView.next_question_interaction :=
                    QuestionView.next_question_interaction
                      (QuestionView.view s);
                  QuestionView.status := INCORRECT;
                  QuestionView.stopped :=
                    QuestionView.stopped (QuestionView.view s) |};
             QuestionView.emitted :=
               (QuestionView.emitted s
                ++ [send_message interaction
                      "Incorrect answer. Please try again." true])%list |}).
Proof.
  destruct s as [[q ni st stp] em].
  unfold MultipleChoiceQuestionView.callback,
    MultipleChoiceQuestion.check_response.
  cbn [QuestionView.view QuestionView.question].
  destruct (String.eqb option_id (MultipleChoiceQuestion.answer q));
    reflexivity.
Qed.

Lemma submit_equation (eval_python : string -> result string)
    (interaction submit_interaction : Interaction) (code program : string)
    (output : string) (s : QuestionView.session WriteCodeQuestion.t) :
  WriteCodeQuestion._get_test_string
    (QuestionView.question (QuestionView.view s)) code = Ok program ->
  eval_python program = Ok output ->
  WriteCodeQuestionView.submit_button eval_python interaction
    (Some (submit_interaction, code)) s
  = if Re.search check_test output
    then (Ok tt,
          {| QuestionView.view :=
               {| QuestionView.question :=
                    QuestionView.question (QuestionView.view s);
                  QuestionView.next_question_interaction :=
                    Some submit_interaction;
                  QuestionView.status := CORRECT;
                  QuestionView.stopped := true |};
             QuestionView.emitted :=
               (QuestionView.emitted s
                ++ [send_modal interaction; defer submit_interaction])%list
          |})
    else (Ok tt,
          {| QuestionView.view :=
               {| QuestionView.question :=
                    QuestionView.question (QuestionView.view s);
                  QuestionView.next_question_interaction :=
                    QuestionView.next_question_interaction
                      (QuestionView.view s);
                  QuestionView.status := INCORRECT;
                  QuestionView.stopped :=
                    QuestionView.stopped (QuestionView.view s) |};
             QuestionView.emitted :=
               (QuestionView.emitted s
                ++ [send_modal interaction;
                    send_message submit_interaction
                      "Incorrect answer. Please try again." true])%list |}).
Proof.
  intros Hp Ho. destruct s as [[q ni st stp] em].
  cbn [QuestionView.view QuestionView.question] in Hp.
  unfold WriteCodeQuestionView.submit_button, QuestionView.seq,
    QuestionView.emit, QuestionView.lift, WriteCodeQuestion.check_response.
  cbn [QuestionView.view QuestionView.question QuestionView.emitted].
  rewrite Hp. cbn [bind]. rewrite Ho. cbn [bind].
  destruct (Re.search check_test output);
    unfold QuestionView.on_success, QuestionView.on_fail, QuestionView.seq,
      QuestionView.update, QuestionView.emit;
    cbn; rewrite <- app_assoc; reflexivity.
Qed.

(** What [submit_button] does when grading raised [e]. *)
Lemma submit_raise_equation (eval_python : string -> result string)
    (interaction submit_interaction : Interaction) (code : string) (e : exn)
    (s : QuestionView.session WriteCodeQuestion.t) :
  WriteCodeQuestion.check_response eval_python
    (QuestionView.question (QuestionView.view s)) code = Raise e ->
  WriteCodeQuestionView.submit_button eval_python interaction
    (Some (submit_interaction, code)) s
  = (Raise e,
     {| QuestionView.view := QuestionView.view s;
        QuestionView.emitted :=
          (QuestionView.emitted s ++ [send_modal interaction])%list |}).
Proof.
  intros He.
  unfold WriteCodeQuestionView.submit_button, QuestionView.seq,
    QuestionView.emit, QuestionView.lift.
  cbn [QuestionView.view QuestionView.emitted]. rewrite He. reflexivity.
Qed.

Lemma submit_ok_equation (eval_python : string -> result string)
    (interaction submit_interaction : Interaction) (code : string)
    (correct : bool) (s : QuestionView.session WriteCodeQuestion.t) :
  WriteCodeQuestion.check_response eval_python
    (QuestionView.question (QuestionView.view s)) code = Ok correct ->
  WriteCodeQuestionView.submit_button eval_python interaction
    (Some (submit_interaction, code)) s
  = (if correct
     then QuestionView.on_success submit_interaction
     else QuestionView.on_fail submit_interaction)
      {| QuestionView.view := QuestionView.view s;
         QuestionView.emitted :=
           (QuestionView.emitted s ++ [send_modal interaction])%list |}.
Proof.
  intros He.
  unfold WriteCodeQuestionView.submit_button, QuestionView.seq,
    QuestionView.emit, QuestionView.lift.
  cbn [QuestionView.view QuestionView.emitted]. rewrite He. reflexivity.
Qed.

End Answers.

Section AnswerProperties.

Lemma spec_trailer_accepted (output : string) :
  spec_classifier output = true -> Re.search check_test output = true.
Proof.
  intros H. apply spec_classifier_iff in H.
  destruct H as (pre & ip & fp & Hip & Hipd & Hfp & Hfpd & ->).
  apply check_test_search_iff. exists pre, (ip ++ "." ++ fp).
  split; [destruct ip; [now elim Hip | discriminate]|].
  split; [|now left].
  rewrite all_append. apply andb_true_iff. split.
  - exact (all_impl _ _ _ digit_not_space Hipd).
  - simpl. exact (all_impl _ _ _ digit_not_space Hfpd).
Qed.

(** X1: the button of an option never raises.  When the option is the
    answer of the question, the view gets the status CORRECT, is stopped,
    keeps the interaction for the next question and defers it; when it is
    not, the view gets the status INCORRECT, stays as open as it was, and
    the user is sent the message to try again. *)
Theorem option_callback_outcome :
  forall option_id interaction
         (s : QuestionView.session MultipleChoiceQuestion.t) r s',
    MultipleChoiceQuestionView.callback option_id interaction s = (r, s') ->
    r = Ok tt
    /\ (option_id
        = MultipleChoiceQuestion.answer
            (QuestionView.question (QuestionView.view s)) ->
        QuestionView.status (QuestionView.view s') = CORRECT
        /\ QuestionView.stopped (QuestionView.view s') = true
        /\ QuestionView.next_question_interaction (QuestionView.view s')
           = Some interaction
        /\ QuestionView.emitted s'
           = (QuestionView.emitted s ++ [defer interaction])%list)
    /\ (option_id
        <> MultipleChoiceQuestion.answer
             (QuestionView.question (QuestionView.view s)) ->
        QuestionView.status (QuestionView.view s') = INCORRECT
        /\ QuestionView.stopped (QuestionView.view s')
           = QuestionView.stopped (QuestionView.view s)
        /\ QuestionView.next_question_interaction (QuestionView.view s')
           = QuestionView.next_question_interaction (QuestionView.view s)
        /\ QuestionView.emitted s'
           = (QuestionView.emitted s
              ++ [send_message interaction
                    "Incorrect answer. Please try again." true])%list).
Proof.
  intros option_id i s r s' H. rewrite callback_equation in H.
  destruct (String.eqb_spec option_id
              (MultipleChoiceQuestion.answer
                 (QuestionView.question (QuestionView.view s)))) as [E|E];
    injection H as <- <-; (split; [reflexivity|]); split; intros E';
    try contradiction; repeat split; reflexivity.
Qed.

Lemma option_callback_outcome_witness :
  MultipleChoiceQuestionView.callback "b" 5 (QuestionView.start sum_question)
  = (Ok tt,
     {| QuestionView.view :=
          {| QuestionView.question := sum_question;
             QuestionView.next_question_interaction := None;
             QuestionView.status := INCORRECT;
             QuestionView.stopped := false |};
        QuestionView.emitted :=
          [send_message 5 "Incorrect answer. Please try again." true] |})
  /\ "b" <> MultipleChoiceQuestion.answer sum_question
  /\ QuestionView.status
       (QuestionView.view
          (snd (MultipleChoiceQuestionView.callback "b" 5
                  (QuestionView.start sum_question)))) = INCORRECT.
Proof.
  split; [reflexivity|]. split; [discriminate|].
  refine (proj1 (proj2 (proj2
            (option_callback_outcome "b" 5 (QuestionView.start sum_question)
               _ _ eq_refl)) _)).
  discriminate.
Defined.

(** X2: when the harness is built and the service returns an output,
    [submit_button] never raises: the view gets the status CORRECT, is
    stopped and keeps the interaction of the modal when [check_test]
    accepts the output, and gets the status INCORRECT, stays as open as it
    was and sends the message to try again when it does not.  So an output
    that ends with a success trailer with a decimal time gives CORRECT,
    and an output that ends with the failure trailer gives INCORRECT. *)
Theorem submit_button_grades :
  forall eval_python interaction submit_interaction code program output
         (s : QuestionView.session WriteCodeQuestion.t) r s',
    WriteCodeQuestion._get_test_string
      (QuestionView.question (QuestionView.view s)) code = Ok program ->
    eval_python program = Ok output ->
    WriteCodeQuestionView.submit_button eval_python interaction
      (Some (submit_interaction, code)) s = (r, s') ->
    r = Ok tt
    /\ (Re.search check_test output = true ->
        QuestionView.status (QuestionView.view s') = CORRECT
        /\ QuestionView.stopped (QuestionView.view s') = true
        /\ QuestionView.next_question_interaction (QuestionView.view s')
           = Some submit_interaction
        /\ QuestionView.emitted s'
           = (QuestionView.emitted s
              ++ [send_modal interaction; defer submit_interaction])%list)
    /\ (Re.search check_test output = false ->
        QuestionView.status (QuestionView.view s') = INCORRECT
        /\ QuestionView.stopped (QuestionView.view s')
           = QuestionView.stopped (QuestionView.view s)
        /\ QuestionView.next_question_interaction (QuestionView.view s')
           = QuestionView.next_question_interaction (QuestionView.view s)
        /\ QuestionView.emitted s'
           = (QuestionView.emitted s
              ++ [send_modal interaction;
                  send_message submit_interaction
                    "Incorrect answer. Please try again." true])%list)
    /\ (spec_classifier output = true ->
        QuestionView.status (QuestionView.view s') = CORRECT)
    /\ (forall pre elapsed,
          output = pre ++ failure_trailer elapsed ->
          QuestionView.status (QuestionView.view s') = INCORRECT).
Proof.
  intros eval_python i si code program output s r s' Hp Ho H.
  rewrite (submit_equation eval_python i si code program output s Hp Ho) in H.
  assert (Hspec : spec_classifier output = true ->
                  Re.search check_test output = true)
    by apply spec_trailer_accepted.
  assert (Hfail : forall pre elapsed,
             output = pre ++ failure_trailer elapsed ->
             Re.search check_test output = false).
  { intros pre elapsed ->. apply failure_trailer_rejected. }
  destruct (Re.search check_test output); injection H as <- <-;
    (split; [reflexivity|]).
  - split; [intros _; repeat split|].
    split; [discriminate|]. split; [reflexivity|].
    intros pre elapsed E. now specialize (Hfail pre elapsed E).
  - split; [discriminate|]. split; [intros _; repeat split|].
    split; [intros E; now specialize (Hspec E) | reflexivity].
Qed.

Lemma submit_button_grades_witness :
  (WriteCodeQuestion._get_test_string add_question add_code = Ok add_program
   /\ Re.search check_test (failure_trailer "0.002") = false)
  /\ QuestionView.status
       (QuestionView.view
          (snd (WriteCodeQuestionView.submit_button
                  (fun _ => Ok (failure_trailer "0.002")) 1
                  (Some (2, add_code)) (QuestionView.start add_question))))
     = INCORRECT.
Proof.
  split; [split; reflexivity|].
  refine (proj1 (proj1 (proj2 (proj2
            (submit_button_grades (fun _ => Ok (failure_trailer "0.002")) 1 2
               add_code add_program (failure_trailer "0.002")
               (QuestionView.start add_question) _ _
               eq_refl eq_refl eq_refl))) _)).
  reflexivity.
Defined.

End AnswerProperties.

Section ViewLifecycle.

(** X3: a view is stopped exactly when its status is CORRECT or EXITED:
    this holds of a new view, the hint button keeps it, the quit button
    establishes it, and the button of an option and [submit_button] keep
    it when they are pressed on a view that is not stopped, whatever the
    option, the modal and the answer of the service. *)
Theorem views_stop_when_final :
  (forall (Q : Type) (P : QuestionProtocol Q) (q : Q),
      settled (QuestionView.start q))
  /\ (forall (Q : Type) (P : QuestionProtocol Q) interaction
             (s : QuestionView.session Q),
        settled s -> settled (snd (QuestionView.get_a_hint interaction s)))
  /\ (forall (Q : Type) (P : QuestionProtocol Q) interaction
             (s : QuestionView.session Q),
        settled (snd (QuestionView.quit_button interaction s)))
  /\ (forall option_id interaction
             (s : QuestionView.session MultipleChoiceQuestion.t),
        settled s ->
        QuestionView.stopped (QuestionView.view s) = false ->
        settled
          (snd (MultipleChoiceQuestionView.callback option_id interaction s)))
  /\ (forall eval_python interaction modal
             (s : QuestionView.session WriteCodeQuestion.t),
        settled s ->
        QuestionView.stopped (QuestionView.view s) = false ->
        settled
          (snd (WriteCodeQuestionView.submit_button eval_python interaction
                  modal s))).
Proof.
  unfold settled. split; [|split; [|split; [|split]]].
  - intros Q P q. cbn. split; [discriminate | intros [H | H]; discriminate].
  - intros Q P i [[q ni st stp] em] H. exact H.
  - intros Q P i s. cbn. split; auto.
  - intros option_id i s H Hopen. rewrite callback_equation.
    destruct (String.eqb option_id _); cbn [snd QuestionView.view
      QuestionView.status QuestionView.stopped].
    + split; auto.
    + rewrite Hopen. split; [discriminate | intros [E | E]; discriminate].
  - intros eval_python i [[si code]|] s H Hopen.
    + destruct (WriteCodeQuestion.check_response eval_python
                  (QuestionView.question (QuestionView.view s)) code)
        as [[|]|e] eqn:E.
      * rewrite (submit_ok_equation _ _ _ _ _ _ E). cbn. split; auto.
      * rewrite (submit_ok_equation _ _ _ _ _ _ E). cbn. rewrite Hopen.
        split; [discriminate | intros [E' | E']; discriminate].
      * rewrite (submit_raise_equation _ _ _ _ _ _ E). exact H.
    + cbn. split; auto.
Qed.

Lemma views_stop_when_final_witness :
  (settled (QuestionView.start add_question)
   /\ QuestionView.stopped
        (QuestionView.view (QuestionView.start add_question)) = false)
  /\ settled
       (snd (WriteCodeQuestionView.submit_button unreachable 1
               (Some (2, add_code)) (QuestionView.start add_question))).
Proof.
  assert (H : settled (QuestionView.start add_question)).
  { exact (proj1 views_stop_when_final _ _ add_question). }
  split; [split; [exact H | reflexivity]|].
  exact (proj2 (proj2 (proj2 (proj2 views_stop_when_final))) unreachable 1
           (Some (2, add_code)) (QuestionView.start add_question) H eq_refl).
Defined.

(** X4: the hint button leaves the status of the view, its stopped flag
    and its interaction for the next question as they were, and sends one
    message that only the user sees; the quit button, the button of an
    option and [submit_button] leave the question of the view, and so its
    unlocked-hint count, as they were, whatever their outcome. *)
Theorem buttons_keep_what_they_do_not_own :
  (forall (Q : Type) (P : QuestionProtocol Q) interaction
          (s : QuestionView.session Q),
      QuestionView.status
        (QuestionView.view (snd (QuestionView.get_a_hint interaction s)))
      = QuestionView.status (QuestionView.view s)
      /\ QuestionView.stopped
           (QuestionView.view (snd (QuestionView.get_a_hint interaction s)))
         = QuestionView.stopped (QuestionView.view s)
      /\ QuestionView.next_question_interaction
           (QuestionView.view (snd (QuestionView.get_a_hint interaction s)))
         = QuestionView.next_question_interaction (QuestionView.view s)
      /\ exists content,
          QuestionView.emitted (snd (QuestionView.get_a_hint interaction s))
          = (QuestionView.emitted s
             ++ [send_message interaction content true])%list)
  /\ (forall (Q : Type) (P : QuestionProtocol Q) interaction
             (s : QuestionView.session Q),
        QuestionView.question
          (QuestionView.view (snd (QuestionView.quit_button interaction s)))
        = QuestionView.question (QuestionView.view s))
  /\ (forall option_id interaction
             (s : QuestionView.session MultipleChoiceQuestion.t),
        QuestionView.question
          (QuestionView.view
             (snd (MultipleChoiceQuestionView.callback option_id interaction
                     s)))
        = QuestionView.question (QuestionView.view s))
  /\ (forall eval_python interaction modal
             (s : QuestionView.session WriteCodeQuestion.t),
        QuestionView.question
          (QuestionView.view
             (snd (WriteCodeQuestionView.submit_button eval_python
                     interaction modal s)))
        = QuestionView.question (QuestionView.view s)).
Proof.
  split; [|split; [|split]].
  - intros Q P i [[q ni st stp] em]. cbn.
    repeat split. eexists. reflexivity.
  - intros Q P i s. reflexivity.
  - intros option_id i s. rewrite callback_equation.
    destruct (String.eqb option_id _); reflexivity.
  - intros eval_python i [[si code]|] s; [|reflexivity].
    destruct (WriteCodeQuestion.check_response eval_python
                (QuestionView.question (QuestionView.view s)) code)
      as [[|]|e] eqn:E.
    + rewrite (submit_ok_equation _ _ _ _ _ _ E). reflexivity.
    + rewrite (submit_ok_equation _ _ _ _ _ _ E). reflexivity.
    + rewrite (submit_raise_equation _ _ _ _ _ _ E). reflexivity.
Qed.

(** X5: an incorrect answer does not close the question: when a first
    submission is graded incorrect and a second one, on the view the first
    one left, is graded correct, the view ends stopped with the status
    CORRECT and the interaction of the second modal, and the user was sent
    the message to try again once, after the first submission. *)
Theorem incorrect_answer_can_be_retried :
  forall eval_python i1 si1 code1 program1 output1 i2 si2 code2 program2
         output2 (s : QuestionView.session WriteCodeQuestion.t),
    WriteCodeQuestion._get_test_string
      (QuestionView.question (QuestionView.view s)) code1 = Ok program1 ->
    eval_python program1 = Ok output1 ->
    Re.search check_test output1 = false ->
    WriteCodeQuestion._get_test_string
      (QuestionView.question (QuestionView.view s)) code2 = Ok program2 ->
    eval_python program2 = Ok output2 ->
    Re.search check_test output2 = true ->
    WriteCodeQuestionView.submit_button eval_python i2 (Some (si2, code2))
      (snd (WriteCodeQuestionView.submit_button eval_python i1
              (Some (si1, code1)) s))
    = (Ok tt,
       {| QuestionView.view :=
            {| QuestionView.question :=
                 QuestionView.question (QuestionView.view s);
               QuestionView.next_question_interaction := Some si2;
               QuestionView.status := CORRECT;
               QuestionView.stopped := true |};
          QuestionView.emitted :=
            (QuestionView.emitted s
             ++ [send_modal i1;
                 send_message si1 "Incorrect answer. Please try again." true;
                 send_modal i2; defer si2])%list |}).
Proof.
  intros eval_python i1 si1 code1 program1 output1 i2 si2 code2 program2
    output2 s Hp1 Ho1 Hc1 Hp2 Ho2 Hc2.
  rewrite (submit_equation eval_python i1 si1 code1 program1 output1 s
             Hp1 Ho1), Hc1.
  cbn [snd].
  match goal with
  | |- WriteCodeQuestionView.submit_button _ _ _ ?s1 = _ =>
      rewrite (submit_equation eval_python i2 si2 code2 program2 output2 s1
                 Hp2 Ho2), Hc2
  end.
  cbn [QuestionView.view QuestionView.question QuestionView.emitted].
  rewrite <- app_assoc. reflexivity.
Qed.

Lemma incorrect_answer_can_be_retried_witness :
  QuestionView.status
    (QuestionView.view
       (snd (WriteCodeQuestionView.submit_button
               (fun program =>
                  if Str.contains "return a+b" program
                  then Ok (success_trailer "0.001")
                  else Ok (failure_trailer "0.001"))
               3 (Some (4, add_code))
               (snd (WriteCodeQuestionView.submit_button
                       (fun program =>
                          if Str.contains "return a+b" program
                          then Ok (success_trailer "0.001")
                          else Ok (failure_trailer "0.001"))
                       1 (Some (2, "def add(a,b): return a-b"))
                       (QuestionView.start add_question))))))
  = CORRECT.
Proof.
  exact (f_equal
           (fun r => QuestionView.status (QuestionView.view (snd r)))
           (incorrect_answer_can_be_retried
              (fun program =>
                 if Str.contains "return a+b" program
                 then Ok (success_trailer "0.001")
                 else Ok (failure_trailer "0.001"))
              1 2 "def add(a,b): return a-b" _ (failure_trailer "0.001")
              3 4 add_code add_program (success_trailer "0.001")
              (QuestionView.start add_question)
              eq_refl eq_refl eq_refl eq_refl eq_refl eq_refl)).
Defined.

Lemma slice_to_nonneg {A : Type} (n : Z) (l : list A) :
  0 <= n -> Str.slice_to n l = firstn (Z.to_nat n) l.
Proof.
  intros H. unfold Str.slice_to.
  destruct (Z.ltb_spec n 0); [lia | reflexivity].
Qed.

(** X6: under the bounds of the count, a press of the hint button sends
    the message [### Hints (k/H)] followed by the first [k] hints, one per
    line after a dash, where [k] is the count after the press and [H] the
    number of hints; on a question without hints every press sends
    [### Hints (0/0)] and an empty dash line and changes nothing in the
    view. *)
Theorem hint_message_lists_unlocked_hints :
  forall interaction (s : QuestionView.session Question),
    0 <= unlocked s <= hint_total s ->
    QuestionView.emitted (snd (QuestionView.get_a_hint interaction s))
    = (QuestionView.emitted s
       ++ [send_message interaction
             ("### Hints ("
              ++ Str.of_int
                   (unlocked (snd (QuestionView.get_a_hint interaction s)))
              ++ "/" ++ Str.of_int (hint_total s) ++ ")" ++ Str.nl ++ "- "
              ++ Str.join (Str.nl ++ "- ")
                   (firstn
                      (Z.to_nat
                         (unlocked
                            (snd (QuestionView.get_a_hint interaction s))))
                      (hints (QuestionView.question (QuestionView.view s)))))
             true])%list
    /\ (hints (QuestionView.question (QuestionView.view s)) = [] ->
        QuestionView.get_a_hint interaction s
        = (Ok tt,
           {| QuestionView.view := QuestionView.view s;
              QuestionView.emitted :=
                (QuestionView.emitted s
                 ++ [send_message interaction
                       ("### Hints (0/0)" ++ Str.nl ++ "- ") true])%list |})).
Proof.
  intros i [[q ni st stp] em] Hs.
  unfold unlocked, hint_total, QuestionView.get_a_hint in *.
  cbn [QuestionView.view QuestionView.question QuestionView.emitted] in *.
  split.
  - destruct q as [q|q]; cbn in *;
      destruct (_ <? _); cbn in *;
      rewrite slice_to_nonneg by lia; reflexivity.
  - intros Hnil. destruct q as [q|q]; cbn in *; rewrite Hnil in *;
      cbn in *.
    + assert (E : MultipleChoiceQuestion.unlocked_hints q = 0) by lia.
      rewrite E. cbn. rewrite !E, !Hnil. reflexivity.
    + assert (E : WriteCodeQuestion.unlocked_hints q = 0) by lia.
      rewrite E. cbn. rewrite !E, !Hnil. reflexivity.
Qed.

Lemma hint_message_lists_unlocked_hints_witness :
  0 <= unlocked
         (QuestionView.start
            (WriteCode (WriteCodeQuestion.__init__ "Q" ["one"; "two"] []
                          None)))
    <= hint_total
         (QuestionView.start
            (WriteCode (WriteCodeQuestion.__init__ "Q" ["one"; "two"] []
                          None)))
  /\ QuestionView.emitted
       (snd (QuestionView.get_a_hint 1
               (QuestionView.start
                  (WriteCode (WriteCodeQuestion.__init__ "Q" ["one"; "two"]
                                [] None)))))
     = [send_message 1 ("### Hints (1/2)" ++ Str.nl ++ "- one") true].
Proof.
  assert (H : 0 <= unlocked
                     (QuestionView.start
                        (WriteCode (WriteCodeQuestion.__init__ "Q"
                                      ["one"; "two"] [] None)))
              <= hint_total
                   (QuestionView.start
                      (WriteCode (WriteCodeQuestion.__init__ "Q"
                                    ["one"; "two"] [] None)))).
  { unfold unlocked, hint_total. simpl. lia. }
  split; [exact H|].
  exact (proj1 (hint_message_lists_unlocked_hints 1 _ H)).
Defined.

End ViewLifecycle.

(** ** More on the harness and the classifier *)

Section HarnessProperties.

Lemma collect_test_strings_app (good rest : list str_dict)
    (ios : list (string * string)) (acc : list string) :
  Forall2 reads_as good ios ->
  WriteCodeQuestion.collect_test_strings acc (good ++ rest)
  = WriteCodeQuestion.collect_test_strings
      (acc ++ map (fun io =>
                     WriteCodeQuestion._get_assert_equal_string
                       (fst io) (snd io)) ios)%list rest.
Proof.
  intros H. revert acc.
  induction H as [|tc io good ios [Hin Hout] _ IH]; intros acc; simpl.
  - now rewrite app_nil_r.
  - rewrite Hin, Hout. simpl. rewrite IH, <- app_assoc. reflexivity.
Qed.

(** X7: the harness builder stops at the first test case that lacks a
    key: when the test cases before it hold their two keys, it raises
    [KeyError] for ["input"] when that key is missing, and for ["output"]
    when only that one is; [check_response] raises the same, whatever the
    code evaluation service would answer. *)
Theorem missing_key_stops_harness :
  forall eval_python self user_code good ios bad rest,
    WriteCodeQuestion.test_cases self = (good ++ bad :: rest)%list ->
    Forall2 reads_as good ios ->
    (Dict.get String.eqb bad "input" = None ->
     WriteCodeQuestion._get_test_string self user_code
     = Raise (KeyError "input")
     /\ WriteCodeQuestion.check_response eval_python self user_code
        = Raise (KeyError "input"))
    /\ (Dict.get String.eqb bad "input" <> None ->
        Dict.get String.eqb bad "output" = None ->
        WriteCodeQuestion._get_test_string self user_code
        = Raise (KeyError "output")
        /\ WriteCodeQuestion.check_response eval_python self user_code
           = Raise (KeyError "output")).
Proof.
  intros eval_python self user_code good ios bad rest Hcases Hgood.
  unfold WriteCodeQuestion.check_response, WriteCodeQuestion._get_test_string.
  rewrite Hcases, (collect_test_strings_app _ _ ios) by exact Hgood.
  cbn [WriteCodeQuestion.collect_test_strings]. unfold getitem. split.
  - intros Hin. rewrite Hin. split; reflexivity.
  - intros Hin Hout.
    destruct (Dict.get String.eqb bad "input"); [|now elim Hin].
    rewrite Hout. split; reflexivity.
Qed.

Lemma missing_key_stops_harness_witness :
  (Forall2 reads_as [[("input", "f(1)"); ("output", "1")]] [("f(1)", "1")]
   /\ Dict.get String.eqb [("input", "f(2)")] "input" <> None
   /\ Dict.get String.eqb [("input", "f(2)")] "output" = None)
  /\ WriteCodeQuestion.check_response (fun _ => Ok "")
       (WriteCodeQuestion.__init__ "Write f." []
          [[("input", "f(1)"); ("output", "1")]; [("input", "f(2)")]] None)
       "f = abs"
     = Raise (KeyError "output").
Proof.
  assert (H : Forall2 reads_as [[("input", "f(1)"); ("output", "1")]]
                [("f(1)", "1")]).
  { repeat constructor. }
  assert (Hin : Dict.get String.eqb [("input", "f(2)")] "input" <> None).
  { discriminate. }
  split; [split; [exact H | split; [exact Hin | reflexivity]]|].
  exact (proj2 (proj2 (missing_key_stops_harness (fun _ => Ok "")
                         (WriteCodeQuestion.__init__ "Write f." []
                            [[("input", "f(1)"); ("output", "1")];
                             [("input", "f(2)")]] None)
                         "f = abs" [[("input", "f(1)"); ("output", "1")]]
                         [("f(1)", "1")] [("input", "f(2)")] [] eq_refl H)
                  Hin eq_refl)).
Defined.

Lemma lines_line_free (s : string) :
  line_free s = true -> Str.lines s = [s].
Proof.
  unfold line_free. induction s as [|c s IH]; simpl; [reflexivity|].
  rewrite andb_true_iff, negb_true_iff. intros [Hc Hs].
  rewrite Hc, (IH Hs). reflexivity.
Qed.

Lemma line_free_append (a b : string) :
  line_free (a ++ b) = line_free a && line_free b.
Proof. apply all_append. Qed.

(** The lines of the body of the test method. *)
Lemma lines_method_body (strs : list string) (rest : string) :
  strs <> [] ->
  Forall (fun s => line_free s = true) strs ->
  Str.lines ("  " ++ Str.join (Str.nl ++ "  ") strs ++ Str.nl ++ rest)
  = (map (fun s => ("  " ++ s)%string) strs ++ Str.lines rest)%list.
Proof.
  induction strs as [|a strs IH]; [now intros H|].
  intros _ Hfree. inversion Hfree as [|? ? Ha Hstrs]; subst.
  destruct strs as [|b strs].
  - change (Str.join (Str.nl ++ "  ") [a]) with a.
    replace ("  " ++ a ++ Str.nl ++ rest) with (("  " ++ a) ++ Str.nl ++ rest)
      by (now rewrite append_assoc).
    rewrite lines_append_nl, lines_line_free; [reflexivity|].
    rewrite line_free_append, Ha. reflexivity.
  - change (Str.join (Str.nl ++ "  ") (a :: b :: strs))
      with (a ++ (Str.nl ++ "  ") ++ Str.join (Str.nl ++ "  ") (b :: strs)).
    replace ("  " ++ (a ++ (Str.nl ++ "  ")
                      ++ Str.join (Str.nl ++ "  ") (b :: strs))
             ++ Str.nl ++ rest)
      with (("  " ++ a) ++ Str.nl
            ++ ("  " ++ Str.join (Str.nl ++ "  ") (b :: strs)
                ++ Str.nl ++ rest))
      by (rewrite !append_assoc; reflexivity).
    rewrite lines_append_nl, lines_line_free, IH;
      [reflexivity | discriminate | exact Hstrs |].
    rewrite line_free_append, Ha. reflexivity.
Qed.

(** X8: when a question has at least one test case and no input or output
    of its test cases has a line feed, the program ends with the line of
    the test class, the line of the test method, one line per test case
    in their order, each made of two spaces and the assertion, and the
    line that runs the tests. *)
Theorem harness_assertion_lines :
  forall self user_code ios,
    Forall2 reads_as (WriteCodeQuestion.test_cases self) ios ->
    ios <> [] ->
    Forall (fun io => line_free (fst io) = true
                      /\ line_free (snd io) = true) ios ->
    exists program,
      WriteCodeQuestion._get_test_string self user_code = Ok program
      /\ Str.lines program
         = (Str.lines (("import unittest" ++ Str.nl) ++ pre_code_text self
                       ++ Str.expandtabs 2 user_code)
            ++ ["class Test(unittest.TestCase):"; " def test_cases(self):"]
            ++ map (fun io =>
                      ("  self.assertEqual(" ++ fst io ++ "," ++ snd io
                       ++ ")")%string)
                 ios
            ++ ["unittest.main()"])%list.
Proof.
  intros self user_code ios Hreads Hne Hfree.
  eexists. split.
  - apply get_test_string_shape.
    now rewrite (collect_test_strings_map _ ios).
  - cbn [app].
    set (strs := map (fun io =>
                        WriteCodeQuestion._get_assert_equal_string
                          (fst io) (snd io)) ios).
    set (head := ("import unittest" ++ Str.nl) ++ pre_code_text self
                 ++ Str.expandtabs 2 user_code).
    replace (("import unittest" ++ Str.nl) ++ pre_code_text self
             ++ Str.expandtabs 2 user_code ++ test_class strs)
      with (head ++ Str.nl
            ++ ("class Test(unittest.TestCase):" ++ Str.nl
                ++ (" def test_cases(self):" ++ Str.nl
                    ++ ("  " ++ Str.join (Str.nl ++ "  ") strs
                        ++ Str.nl ++ "unittest.main()"))))
      by (unfold head, test_class; rewrite !append_assoc; reflexivity).
    rewrite lines_append_nl.
    rewrite (lines_append_nl "class Test(unittest.TestCase):").
    rewrite (lines_append_nl " def test_cases(self):").
    rewrite lines_method_body.
    + unfold strs. rewrite map_map. reflexivity.
    + unfold strs. destruct ios; [now elim Hne | discriminate].
    + unfold strs. rewrite Forall_map. revert Hfree. apply Forall_impl.
      intros io [Hi Ho]. unfold WriteCodeQuestion._get_assert_equal_string.
      rewrite !line_free_append, Hi, Ho. reflexivity.
Qed.

End HarnessProperties.

Section HarnessWitnesses.

Lemma harness_assertion_lines_witness :
  (Forall2 reads_as (WriteCodeQuestion.test_cases add_question)
     [("add(1,2)", "3")]
   /\ [("add(1,2)", "3")] <> []
   /\ Forall (fun io => line_free (fst io) = true
                        /\ line_free (snd io) = true) [("add(1,2)", "3")])
  /\ exists program,
      WriteCodeQuestion._get_test_string add_question add_code = Ok program
      /\ Str.lines program
         = ["import unittest"; "def add(a,b): return a+b";
            "class Test(unittest.TestCase):"; " def test_cases(self):";
            "  self.assertEqual(add(1,2),3)"; "unittest.main()"].
Proof.
  assert (H1 : Forall2 reads_as (WriteCodeQuestion.test_cases add_question)
                 [("add(1,2)", "3")]).
  { repeat constructor. }
  assert (H2 : [("add(1,2)", "3")] <> @nil (string * string)).
  { discriminate. }
  assert (H3 : Forall (fun io => line_free (fst io) = true
                                 /\ line_free (snd io) = true)
                 [("add(1,2)", "3")]).
  { repeat constructor. }
  split; [split; [exact H1 | split; [exact H2 | exact H3]]|].
  destruct (harness_assertion_lines add_question add_code
              [("add(1,2)", "3")] H1 H2 H3) as (program & Hp & Hl).
  exists program. split; [exact Hp|]. rewrite Hl. reflexivity.
Defined.

(** X9: only the end of the output counts for [check_test]: an output it
    accepts is still accepted with any text before it, and an output whose
    last character is not a line feed, or an empty output, is never
    accepted. *)
Theorem classifier_reads_the_end :
  (forall pre output,
      Re.search check_test output = true ->
      Re.search check_test (pre ++ output) = true)
  /\ (forall output c,
        c <> Str.lf ->
        Re.search check_test (output ++ String c "") = false)
  /\ Re.search check_test "" = false.
Proof.
  split; [|split; [|reflexivity]].
  - intros pre output H. apply search_iff in H.
    destruct H as (pre' & s & -> & Hm).
    apply search_iff. exists (pre ++ pre'), s.
    split; [now rewrite append_assoc | exact Hm].
  - intros output c Hc.
    destruct (Re.search check_test (output ++ String c "")) eqn:E;
      [exfalso | reflexivity].
    apply check_test_search_iff in E.
    destruct E as (pre & tok & _ & _ & [E | E]);
      unfold success_trailer in E.
    + assert (H : String c "" = Str.nl).
      { apply (append_same_tail output
                 (pre ++ "Ran 1 test in " ++ tok ++ "s" ++ Str.nl
                  ++ Str.nl ++ "OK")); [|reflexivity].
        rewrite !append_assoc. exact E. }
      injection H as H. contradiction.
    + assert (H : String c "" = Str.nl).
      { apply (append_same_tail output
                 (pre ++ "Ran 1 test in " ++ tok ++ "s" ++ Str.nl
                  ++ Str.nl ++ "OK" ++ Str.nl)); [|reflexivity].
        rewrite !append_assoc in E. rewrite !append_assoc. exact E. }
      injection H as H. contradiction.
Qed.

Lemma classifier_reads_the_end_witness :
  (Re.search check_test (success_trailer "0.010") = true
   /\ Re.search check_test ("printed" ++ Str.nl ++ success_trailer "0.010")
      = true)
  /\ ("K"%char <> Str.lf
      /\ Re.search check_test
           (("Ran 1 test in 0.010s" ++ Str.nl ++ Str.nl ++ "O")
            ++ String "K" "") = false).
Proof.
  split.
  - split; [reflexivity|].
    exact (proj1 classifier_reads_the_end ("printed" ++ Str.nl)
             (success_trailer "0.010") eq_refl).
  - assert (H : "K"%char <> Str.lf) by discriminate.
    split; [exact H|].
    exact (proj1 (proj2 classifier_reads_the_end)
             ("Ran 1 test in 0.010s" ++ Str.nl ++ Str.nl ++ "O") "K"%char H).
Defined.

End HarnessWitnesses.

(** ** More on the factory and the views it serves *)

Section FactoryProperties.

(** X10: [question_factory] returns a question exactly for the keywords
    of a multiple choice definition, [type], [question], [hints],
    [options] and [answer] and no other, and for those of a write code
    definition, [type], [question], [hints], [test_cases], [pre_code] or
    not, and no other; the question is the one its class makes of these
    fields.  Any other keywords make it raise. *)
Theorem question_factory_accepts_exactly :
  forall question_data q,
    question_factory question_data = Ok q <->
    (exists question hints options answer,
        question_data = multiple_choice_data question hints options answer
        /\ q = MultipleChoice
                 (MultipleChoiceQuestion.__init__ question hints options
                    answer))
    \/ (exists question hints test_cases pre_code,
          question_data = write_code_data question hints test_cases pre_code
          /\ q = WriteCode
                   (WriteCodeQuestion.__init__ question hints test_cases
                      match pre_code with
                      | Some given => given
                      | None => None
                      end)).
Proof.
  intros question_data q. split.
  - destruct question_data as [ty qu hi op an tc pc ot].
    unfold question_factory, pop_type. cbn [kw_type].
    destruct ty as [tag|]; [|discriminate]. cbn [bind].
    destruct (String.eqb_spec tag "multiple_choice") as [->|H1].
    + unfold new_MultipleChoiceQuestion. cbn.
      destruct qu, hi, op, an, tc, pc, ot; try discriminate.
      intros H. injection H as <-. left. now eexists _, _, _, _.
    + destruct (String.eqb_spec tag "write_code") as [->|H2];
        [|discriminate].
      unfold new_WriteCodeQuestion. cbn.
      destruct qu, hi, op, an, tc, ot; try discriminate.
      intros H. injection H as <-. right. now eexists _, _, _, pc.
  - intros [(question & hints & options & answer & -> & ->)
           | (question & hints & test_cases & pre_code & -> & ->)].
    + reflexivity.
    + destruct pre_code as [[|]|]; reflexivity.
Qed.

Lemma question_factory_accepts_exactly_witness :
  question_factory
    (write_code_data "Write add." [] [[("input", "add(1,2)");
                                       ("output", "3")]] None)
  = Ok (WriteCode add_question).
Proof.
  apply (proj2 (question_factory_accepts_exactly _ _)).
  right. exists "Write add.", [], [[("input", "add(1,2)"); ("output", "3")]],
           None.
  split; reflexivity.
Defined.

Lemma emoji_known (option_id : string) :
  known_option_id option_id = true ->
  exists e, OptionButtons._emoji option_id = Ok e.
Proof.
  unfold known_option_id, OptionButtons._emoji, getitem, OptionButtons.ids.
  cbn [existsb Dict.get].
  repeat (destruct (String.eqb option_id _); [intros _; now eexists|]).
  discriminate.
Qed.

Lemma emoji_unknown (option_id : string) :
  known_option_id option_id = false ->
  OptionButtons._emoji option_id = Raise (KeyError option_id).
Proof.
  unfold known_option_id, OptionButtons._emoji, getitem, OptionButtons.ids.
  cbn [existsb Dict.get].
  repeat (destruct (String.eqb option_id _); [discriminate|]).
  reflexivity.
Qed.

Lemma add_option_buttons_known (items : str_dict)
    (children : list OptionButtons.button) :
  forallb known_option_id (map fst items) = true ->
  exists buttons,
    OptionButtons.add_option_buttons children items
    = Ok (children ++ buttons)%list
    /\ map OptionButtons.label buttons = map snd items
    /\ map OptionButtons.answers buttons = map fst items.
Proof.
  revert children.
  induction items as [|[option_id label] items IH]; intros children H.
  - exists []. rewrite app_nil_r. repeat split.
  - cbn [map fst forallb] in H. apply andb_true_iff in H.
    destruct H as [Hk Hrest].
    destruct (emoji_known option_id Hk) as (e & He).
    cbn [OptionButtons.add_option_buttons].
    unfold OptionButtons.add_option_button. rewrite He. cbn [bind].
    destruct (IH (children
                  ++ [{| OptionButtons.emoji := e;
                         OptionButtons.label := label;
                         OptionButtons.answers := option_id |}])%list Hrest)
      as (buttons & Hb & Hl & Ha).
    exists ({| OptionButtons.emoji := e; OptionButtons.label := label;
               OptionButtons.answers := option_id |} :: buttons).
    rewrite Hb, <- app_assoc. cbn. rewrite Hl, Ha. repeat split.
Qed.

Lemma add_option_buttons_unknown (good rest : str_dict) (bad label : string)
    (children : list OptionButtons.button) :
  forallb known_option_id (map fst good) = true ->
  known_option_id bad = false ->
  OptionButtons.add_option_buttons children
    (good ++ (bad, label) :: rest)%list
  = Raise (KeyError bad).
Proof.
  revert children.
  induction good as [|[option_id l] good IH]; intros children Hgood Hbad.
  - cbn [app OptionButtons.add_option_buttons].
    unfold OptionButtons.add_option_button.
    now rewrite (emoji_unknown bad Hbad).
  - cbn [map fst forallb] in Hgood. apply andb_true_iff in Hgood.
    destruct Hgood as [Hk Hgood].
    destruct (emoji_known option_id Hk) as (e & He).
    cbn [app OptionButtons.add_option_buttons].
    unfold OptionButtons.add_option_button. rewrite He. cbn [bind].
    now apply IH.
Qed.

(** X11: the view of a multiple choice question can be made exactly when
    every option id is one of the letters a to f: then it is a new view
    with one button per option, in the order of the options, each with the
    label of its option and answering with its id; otherwise making the
    view, and so [Question.view], raises [KeyError] for the first option
    id that is not one of them. *)
Theorem option_buttons_need_known_ids :
  (forall q,
      forallb known_option_id (map fst (MultipleChoiceQuestion.options q))
      = true ->
      exists buttons,
        OptionButtons.__init__ q = Ok (QuestionView.__init__ q, buttons)
        /\ Question_view (MultipleChoice q)
           = Ok (MultipleChoiceView (QuestionView.__init__ q) buttons)
        /\ map OptionButtons.label buttons
           = map snd (MultipleChoiceQuestion.options q)
        /\ map OptionButtons.answers buttons
           = map fst (MultipleChoiceQuestion.options q))
  /\ (forall q good bad label rest,
        MultipleChoiceQuestion.options q
        = (good ++ (bad, label) :: rest)%list ->
        forallb known_option_id (map fst good) = true ->
        known_option_id bad = false ->
        OptionButtons.__init__ q = Raise (KeyError bad)
        /\ Question_view (MultipleChoice q) = Raise (KeyError bad)).
Proof.
  split.
  - intros q H.
    destruct (add_option_buttons_known _ [] H) as (buttons & Hb & Hl & Ha).
    exists buttons. unfold Question_view, OptionButtons.__init__.
    rewrite Hb. repeat split; assumption.
  - intros q good bad label rest Hopts Hgood Hbad.
    unfold Question_view, OptionButtons.__init__.
    rewrite Hopts, (add_option_buttons_unknown _ _ _ _ _ Hgood Hbad).
    split; reflexivity.
Qed.

Lemma option_buttons_need_known_ids_witness :
  (forallb known_option_id
     (map fst (MultipleChoiceQuestion.options sum_question)) = true
   /\ exists buttons,
       Question_view (MultipleChoice sum_question)
       = Ok (MultipleChoiceView (QuestionView.__init__ sum_question) buttons)
       /\ map OptionButtons.label buttons = ["4"; "5"; "6"])
  /\ (known_option_id "g" = false
      /\ Question_view
           (MultipleChoice
              (MultipleChoiceQuestion.__init__ "Pick." []
                 [("a", "x"); ("g", "y")] "a"))
         = Raise (KeyError "g")).
Proof.
  split.
  - split; [reflexivity|].
    destruct (proj1 option_buttons_need_known_ids sum_question eq_refl)
      as (buttons & _ & Hv & Hl & _).
    exists buttons. split; [exact Hv | exact Hl].
  - split; [reflexivity|].
    exact (proj2 (proj2 option_buttons_need_known_ids
                    (MultipleChoiceQuestion.__init__ "Pick." []
                       [("a", "x"); ("g", "y")] "a")
                    [("a", "x")] "g" "y" [] eq_refl eq_refl eq_refl)).
Defined.




End FactoryProperties.

(** ** More on the level registry *)

Section RegistryProperties.

Lemma find_position_app (position : Z * Z) (ls : list Level.t)
    (level : Level.t) :
  Controller.find_position position (ls ++ [level])
  = match Controller.find_position position ls with
    | Some found => Some found
    | None =>
        if position_eqb (Level.map_position level) position
        then Some level else None
    end.
Proof.
  induction ls as [|l ls IH]; simpl; [reflexivity|].
  destruct (position_eqb (Level.map_position l) position);
    [reflexivity | exact IH].
Qed.

Lemma not_in_positions (position : Z * Z) (ls : list Level.t) :
  ~ In position (map Level.map_position ls) ->
  Controller.find_position position ls = None.
Proof.
  intros H. apply find_position_none. apply Forall_forall.
  intros l Hl E. apply H. rewrite <- E. now apply in_map.
Qed.

(** X13: when [add_level] returns, the level is the last of the
    registered levels, [get_level_map] finds it at its map position, and
    the answer of [get_level_map] at every other position is what it was
    before the call. *)
Theorem added_level_is_found :
  forall self level self',
    Controller.add_level self level = (Ok tt, self') ->
    registered self' = (registered self ++ [level])%list
    /\ Controller.get_level_map self' (Level.map_position level) = Ok level
    /\ (forall position,
          position <> Level.map_position level ->
          Controller.get_level_map self' position
          = Controller.get_level_map self position).
Proof.
  intros self level self' H.
  destruct (add_level_cases self level)
    as [(_ & E) | [(_ & _ & E) | (_ & Hnpos & E)]];
    rewrite E in H; try discriminate.
  injection H as <-.
  assert (Hreg : registered
                   {| Controller.levels :=
                        (Controller.levels self
                         ++ [(Level.id level, level)])%list |}
                 = (registered self ++ [level])%list).
  { unfold registered, Dict.values. cbn [Controller.levels].
    now rewrite map_app. }
  split; [exact Hreg|].
  unfold Controller.get_level_map. fold (registered self).
  change (Dict.values
            (Controller.levels
               {| Controller.levels :=
                    (Controller.levels self
                     ++ [(Level.id level, level)])%list |}))
    with (registered
            {| Controller.levels :=
                 (Controller.levels self
                  ++ [(Level.id level, level)])%list |}).
  rewrite Hreg. split.
  - rewrite find_position_app, (not_in_positions _ _ Hnpos).
    now rewrite (proj2 (position_eqb_eq _ _) eq_refl).
  - intros position Hne. rewrite find_position_app.
    destruct (Controller.find_position position (registered self));
      [reflexivity|].
    destruct (position_eqb (Level.map_position level) position) eqn:E';
      [|reflexivity].
    apply position_eqb_eq in E'. now elim Hne.
Qed.

Lemma added_level_is_found_witness :
  Controller.add_level (snd (Controller.add_level Controller.__init__ level_1))
    level_2 = (Ok tt, two_levels)
  /\ Controller.get_level_map two_levels (Level.map_position level_2)
     = Ok level_2.
Proof.
  split; [reflexivity|].
  exact (proj1 (proj2 (added_level_is_found
                         (snd (Controller.add_level Controller.__init__
                                 level_1))
                         level_2 two_levels eq_refl))).
Defined.

Lemma well_keyed_lookup (self : Controller.t) (level : Level.t) :
  well_keyed self -> In level (registered self) ->
  Controller.get_level_map self (Level.map_position level) = Ok level.
Proof.
  intros (_ & _ & Hnd) Hin. unfold Controller.get_level_map.
  fold (registered self).
  destruct (Controller.find_position (Level.map_position level)
              (registered self)) as [l|] eqn:E.
  - apply find_position_some in E.
    destruct E as (before & after & Hls & Hpos & _).
    f_equal. apply (NoDup_map_injective _ _ _ _ Hnd); auto.
    rewrite Hls. apply in_elt.
  - apply find_position_none in E.
    rewrite Forall_forall in E. now elim (E level Hin).
Qed.

Lemma dict_get_in (d : list (Z * Level.t)) (k : Z) (v : Level.t) :
  NoDup (map fst d) -> In (k, v) d -> Dict.get Z.eqb d k = Some v.
Proof.
  induction d as [|[k' v'] d IH]; simpl; [tauto|].
  intros Hnd [E | Hin]; inversion Hnd as [|? ? Hk Hd]; subst.
  - injection E as -> ->. now rewrite Z.eqb_refl.
  - destruct (Z.eqb_spec k k') as [->|Hne]; [|now apply IH].
    elim Hk. change k' with (fst (k', v)). now apply in_map.
Qed.

Lemma register_fold (ls : list Level.t) (self : Controller.t) :
  well_keyed self ->
  NoDup (map Level.id (registered self ++ ls)) ->
  NoDup (map Level.map_position (registered self ++ ls)) ->
  registered
    (fold_left (fun self level => snd (Controller.add_level self level)) ls
       self)
  = (registered self ++ ls)%list
  /\ well_keyed
       (fold_left (fun self level => snd (Controller.add_level self level))
          ls self).
Proof.
  revert self. induction ls as [|l ls IH]; intros self Hwk Hid Hpos.
  - cbn [fold_left]. now rewrite app_nil_r.
  - cbn [fold_left]. destruct Hwk as (Hk & Hkid & Hkpos).
    rewrite map_app in Hid, Hpos. cbn [map] in Hid, Hpos.
    pose proof (NoDup_remove_2 _ _ _ Hid) as Hnid.
    pose proof (NoDup_remove_2 _ _ _ Hpos) as Hnpos.
    rewrite in_app_iff in Hnid, Hnpos.
    destruct (add_level_cases self l)
      as [(Hi & _) | [(_ & Hi & _) | (_ & _ & E)]].
    + rewrite Hk in Hi. tauto.
    + tauto.
    + rewrite E. cbn [snd].
      assert (Hreg : registered
                       {| Controller.levels :=
                            (Controller.levels self
                             ++ [(Level.id l, l)])%list |}
                     = (registered self ++ [l])%list).
      { unfold registered, Dict.values. cbn [Controller.levels].
        now rewrite map_app. }
      destruct (IH {| Controller.levels :=
                        (Controller.levels self ++ [(Level.id l, l)])%list |})
        as (Hr & Hw).
      * unfold well_keyed. rewrite Hreg. cbn [Controller.levels].
        rewrite !map_app. cbn [map fst]. rewrite Hk.
        split; [reflexivity|].
        split; apply NoDup_snoc; tauto.
      * rewrite Hreg, <- app_assoc, map_app. exact Hid.
      * rewrite Hreg, <- app_assoc, map_app. exact Hpos.
      * rewrite Hr, Hreg, <- app_assoc. split; [reflexivity | exact Hw].
Qed.

(** X14: when no two levels of a list share an id or a map position,
    registering them in order keeps them all, in that order; every one of
    them is stored under its id and is what [get_level_map] returns at its
    map position. *)
Theorem distinct_levels_all_register :
  forall ls,
    NoDup (map Level.id ls) ->
    NoDup (map Level.map_position ls) ->
    registered (register_all ls) = ls
    /\ (forall level,
          In level ls ->
          Dict.get Z.eqb (Controller.levels (register_all ls))
            (Level.id level) = Some level
          /\ Controller.get_level_map (register_all ls)
               (Level.map_position level) = Ok level).
Proof.
  intros ls Hid Hpos.
  assert (Hnew : well_keyed Controller.__init__).
  { repeat split; constructor. }
  destruct (register_fold ls Controller.__init__ Hnew Hid Hpos) as (Hr & Hw).
  fold (register_all ls) in Hr, Hw. cbn [app] in Hr.
  unfold registered at 2 in Hr. cbn in Hr.
  split; [exact Hr|].
  intros level Hin. split.
  - destruct Hw as (Hk & Hkid & _).
    apply dict_get_in; [now rewrite Hk|].
    rewrite <- Hr in Hin. unfold registered, Dict.values in Hin, Hk.
    apply in_map_iff in Hin. destruct Hin as ([k v] & E & Hin).
    cbn in E. subst v.
    assert (Ek : k = Level.id level).
    { clear - Hk Hin.
      induction (Controller.levels (register_all ls)) as [|[k' v'] d IH];
        [contradiction|].
      cbn in Hk. injection Hk as Hk' Hk. destruct Hin as [E | Hin].
      - injection E as -> ->. exact Hk'.
      - now apply IH. }
    now subst k.
  - apply well_keyed_lookup; [exact Hw | now rewrite Hr].
Qed.

Lemma distinct_levels_all_register_witness :
  (NoDup (map Level.id [level_1; level_2])
   /\ NoDup (map Level.map_position [level_1; level_2]))
  /\ registered (register_all [level_1; level_2]) = [level_1; level_2].
Proof.
  assert (H1 : NoDup (map Level.id [level_1; level_2])).
  { repeat constructor; simpl; intuition discriminate. }
  assert (H2 : NoDup (map Level.map_position [level_1; level_2])).
  { repeat constructor; simpl; intuition discriminate. }
  split; [split; [exact H1 | exact H2]|].
  exact (proj1 (distinct_levels_all_register [level_1; level_2] H1 H2)).
Defined.

End RegistryProperties.

(** ** The map *)

Section MapDescription.

Lemma find_member_none (position : Z * Z)
    (members : list (string * (Z * Z))) :
  Map.find_member position members = None <->
  existsb (position_eqb position) (map snd members) = false.
Proof.
  induction members as [|[key value] members IH]; simpl; [tauto|].
  destruct (position_eqb value position) eqn:E.
  - apply position_eqb_eq in E. subst value.
    rewrite (proj2 (position_eqb_eq position position) eq_refl).
    split; discriminate.
  - assert (E' : position_eqb position value = false).
    { destruct (position_eqb position value) eqn:E'; [|reflexivity].
      apply position_eqb_eq in E'. subst value.
      now rewrite (proj2 (position_eqb_eq position position) eq_refl) in E. }
    rewrite E'. exact IH.
Qed.

Lemma find_member_some (position : Z * Z)
    (members : list (string * (Z * Z))) (key : string) :
  Map.find_member position members = Some key -> In (key, position) members.
Proof.
  induction members as [|[k value] members IH]; simpl; [discriminate|].
  destruct (position_eqb value position) eqn:E.
  - apply position_eqb_eq in E. intros H. injection H as ->. subst value.
    now left.
  - intros H. right. now apply IH.
Qed.

(** X15: the confirm button and the description agree: a position is a
    level, which is when [update_buttons] enables the confirm button,
    exactly when the description under the map names a member of
    [MapPosition] at that position, and it is not a level exactly when the
    description asks to press the arrow keys. *)
Theorem confirm_matches_description :
  forall position,
    (Map.is_level position = true <->
     exists key,
       In (key, position) Map.MapPosition
       /\ Map.get_embed_description position = hovering key)
    /\ (Map.is_level position = false <->
        Map.get_embed_description position
        = "Press the arrow keys to move around.").
Proof.
  intros position. unfold Map.is_level, Map.get_embed_description.
  pose proof (find_member_none position Map.MapPosition) as Hnone.
  pose proof (find_member_some position Map.MapPosition) as Hsome.
  destruct (Map.find_member position Map.MapPosition) as [key|].
  - assert (E : existsb (position_eqb position) (map snd Map.MapPosition)
                = true).
    { destruct (existsb _ _) eqn:E; [reflexivity|].
      discriminate (proj2 Hnone eq_refl). }
    rewrite E. split.
    + split; [intros _ | reflexivity].
      exists key. split; [now apply Hsome | reflexivity].
    + split; discriminate.
  - rewrite (proj1 Hnone eq_refl). split.
    + split; [discriminate|]. intros (key & _ & H). discriminate.
    + split; reflexivity.
Qed.

Lemma confirm_matches_description_witness :
  Map.is_level (11, 3) = true
  /\ exists key,
      In (key, (11, 3)) Map.MapPosition
      /\ Map.get_embed_description (11, 3) = hovering key.
Proof.
  split; [reflexivity|].
  exact (proj1 (proj1 (confirm_matches_description (11, 3))) eq_refl).
Defined.

(** X16: every member of [MapPosition] is found by its value: at the value
    of a member the position is a level and the description names that
    member, so no two members share a value. *)
Theorem every_level_position_is_named :
  forall key value,
    In (key, value) Map.MapPosition ->
    Map.is_level value = true
    /\ Map.get_embed_description value = hovering key.
Proof.
  intros key value H. unfold Map.MapPosition in H. cbn [In] in H.
  repeat (destruct H as [H | H];
          [injection H as <- <-; split; reflexivity|]).
  contradiction.
Qed.

Lemma every_level_position_is_named_witness :
  In ("LvlA", (8, -2)) Map.MapPosition
  /\ Map.get_embed_description (8, -2) = hovering "LvlA".
Proof.
  assert (H : In ("LvlA", (8, -2)) Map.MapPosition).
  { unfold Map.MapPosition. cbn [In]. do 11 right. left. reflexivity. }
  split; [exact H|].
  exact (proj2 (every_level_position_is_named "LvlA" (8, -2) H)).
Defined.

End MapDescription.

Section MapMoves.

Lemma update_button_custom_id (map_z : list (string * list (string * Z)))
    (x y : Z) (at_level : bool) (child : Map.button) :
  Map.custom_id (Map.update_button map_z x y at_level child)
  = Map.custom_id child.
Proof.
  unfold Map.update_button.
  repeat match goal with
         | |- context [if String.eqb ?a ?b then _ else _] =>
             destruct (String.eqb a b); cbn [Map.set_disabled Map.custom_id]
         end; reflexivity.
Qed.

Lemma navigate_keeps (Image : Type)
    (map_z : list (string * list (string * Z)))
    (draw : Z * Z -> string -> result Image) (interaction : Interaction)
    (self : Map.t) :
  Map.position (snd (fst (Map.navigate map_z Image draw interaction self)))
  = Map.position self
  /\ Map.user (snd (fst (Map.navigate map_z Image draw interaction self)))
     = Map.user self
  /\ map Map.custom_id
       (Map.children
          (snd (fst (Map.navigate map_z Image draw interaction self))))
     = map Map.custom_id (Map.children self).
Proof.
  unfold Map.navigate.
  destruct (draw (Map.position self) (Map.user self)); cbn [fst snd];
    [|now repeat split].
  unfold Map.update_buttons. destruct (Map.position self) as [x y] eqn:E.
  cbn [Map.position Map.user Map.children]. repeat split.
  rewrite map_map. apply map_ext. intros b. apply update_button_custom_id.
Qed.

Lemma move_equation (Image : Type)
    (map_z : list (string * list (string * Z)))
    (draw : Z * Z -> string -> result Image) (interaction : Interaction)
    (x y : Z) (self : Map.t) :
  Map.move map_z Image draw interaction x y self
  = if Map.validate_coord map_z
         (fst (Map.position self) + x, snd (Map.position self) + y)
    then Map.navigate map_z Image draw interaction
           {| Map.position :=
                (fst (Map.position self) + x, snd (Map.position self) + y);
              Map.user := Map.user self;
              Map.children := Map.children self |}
    else (Ok tt, self, []).
Proof.
  unfold Map.move. destruct (Map.position self) as [old_x old_y].
  reflexivity.
Qed.

Lemma move_keeps (Image : Type)
    (map_z : list (string * list (string * Z)))
    (draw : Z * Z -> string -> result Image) (interaction : Interaction)
    (x y : Z) (self : Map.t) :
  Map.position (snd (fst (Map.move map_z Image draw interaction x y self)))
  = (if Map.validate_coord map_z
          (fst (Map.position self) + x, snd (Map.position self) + y)
     then (fst (Map.position self) + x, snd (Map.position self) + y)
     else Map.position self)
  /\ Map.user (snd (fst (Map.move map_z Image draw interaction x y self)))
     = Map.user self
  /\ map Map.custom_id
       (Map.children
          (snd (fst (Map.move map_z Image draw interaction x y self))))
     = map Map.custom_id (Map.children self).
Proof.
  rewrite move_equation.
  destruct (Map.validate_coord map_z _); [|now repeat split].
  match goal with
  | |- context [Map.navigate _ _ _ _ ?s] =>
      exact (navigate_keeps Image map_z draw interaction s)
  end.
Qed.

(** X17: a view of the map never leaves the map: a move to a square that
    is not on the map returns without an event and leaves the view as it
    was, and when the position of a view is on the map it still is after
    any moves, whatever the drawing does; its user and the ids of its
    buttons stay the same. *)
Theorem moves_stay_on_the_map :
  forall (Image : Type) map_z (draw : Z * Z -> string -> result Image)
         (self : Map.t),
    (forall interaction x y,
        Map.validate_coord map_z
          (fst (Map.position self) + x, snd (Map.position self) + y) = false ->
        Map.move map_z Image draw interaction x y self = (Ok tt, self, []))
    /\ (forall steps,
          Map.validate_coord map_z (Map.position self) = true ->
          Map.validate_coord map_z
            (Map.position (after_moves map_z draw steps self)) = true)
    /\ (forall steps,
          Map.user (after_moves map_z draw steps self) = Map.user self
          /\ map Map.custom_id
               (Map.children (after_moves map_z draw steps self))
             = map Map.custom_id (Map.children self)).
Proof.
  intros Image map_z draw self. split; [|split].
  - intros i x y H. now rewrite move_equation, H.
  - intros steps. revert self.
    induction steps as [|[x y] steps IH]; intros self H; [exact H|].
    unfold after_moves. cbn [fold_left fst snd]. apply IH.
    rewrite (proj1 (move_keeps Image map_z draw 0 x y self)).
    destruct (Map.validate_coord map_z
                (fst (Map.position self) + x, snd (Map.position self) + y))
      eqn:E; [exact E | exact H].
  - intros steps. revert self.
    induction steps as [|[x y] steps IH]; intros self; [now split|].
    unfold after_moves. cbn [fold_left fst snd].
    destruct (IH (snd (fst (Map.move map_z Image draw 0 x y self))))
      as (Hu & Hc).
    unfold after_moves in Hu, Hc. rewrite Hu, Hc.
    destruct (move_keeps Image map_z draw 0 x y self) as (_ & Hu' & Hc').
    now split.
Qed.

Lemma moves_stay_on_the_map_witness :
  (Map.validate_coord small_map (Map.position (Map.__init__ (0, 0) "Ann"))
   = true
   /\ Map.position
        (after_moves small_map sketch [(1, 0); (0, 1); (0, -1); (5, 5)]
           (Map.__init__ (0, 0) "Ann")) = (1, -1))
  /\ Map.validate_coord small_map
       (Map.position
          (after_moves small_map sketch [(1, 0); (0, 1); (0, -1); (5, 5)]
             (Map.__init__ (0, 0) "Ann"))) = true.
Proof.
  split; [split; reflexivity|].
  exact (proj1 (proj2 (moves_stay_on_the_map (Z * Z) small_map sketch
                         (Map.__init__ (0, 0) "Ann")))
           [(1, 0); (0, 1); (0, -1); (5, 5)] eq_refl).
Defined.

Lemma update_buttons_children (map_z : list (string * list (string * Z)))
    (x y : Z) (at_level : bool) (children : list Map.button) :
  map Map.custom_id children = map_button_ids ->
  map (Map.update_button map_z x y at_level) children
  = [{| Map.custom_id := "button_left";
        Map.disabled := Map.should_disable map_z (x - 1) y |};
     {| Map.custom_id := "button_up";
        Map.disabled := Map.should_disable map_z x (y - 1) |};
     {| Map.custom_id := "button_right";
        Map.disabled := Map.should_disable map_z (x + 1) y |};
     {| Map.custom_id := "button_down";
        Map.disabled := Map.should_disable map_z x (y + 1) |};
     {| Map.custom_id := "button_confirm";
        Map.disabled := negb at_level |}].
Proof.
  unfold map_button_ids.
  destruct children as [|[c1 d1] [|[c2 d2] [|[c3 d3] [|[c4 d4] [|[c5 d5]
    [|? ?]]]]]]; cbn [map Map.custom_id]; intros H; try discriminate.
  injection H as -> -> -> -> ->. reflexivity.
Qed.

(** X18: after [navigate] has returned on a view with the five buttons of
    the class, the buttons tell what a click does: the confirm button is
    disabled exactly when the position is not a level, and for each arrow,
    a click on it leaves the view as it was and sends nothing when the
    button is disabled, and puts the position one square further in its
    direction when it is enabled. *)
Theorem arrows_match_moves :
  forall (Image : Type) map_z (draw : Z * Z -> string -> result Image)
         interaction (self self' : Map.t) events,
    map Map.custom_id (Map.children self) = map_button_ids ->
    Map.navigate map_z Image draw interaction self = (Ok tt, self', events) ->
    Map.position self' = Map.position self
    /\ disabled_of "button_confirm" self'
       = negb (Map.is_level (Map.position self))
    /\ (forall i,
          if disabled_of "button_left" self'
          then Map.button_left_clicked map_z Image draw i self'
               = (Ok tt, self', [])
          else Map.position
                 (snd (fst (Map.button_left_clicked map_z Image draw i self')))
               = (fst (Map.position self) - 1, snd (Map.position self)))
    /\ (forall i,
          if disabled_of "button_up" self'
          then Map.button_up_clicked map_z Image draw i self'
               = (Ok tt, self', [])
          else Map.position
                 (snd (fst (Map.button_up_clicked map_z Image draw i self')))
               = (fst (Map.position self), snd (Map.position self) - 1))
    /\ (forall i,
          if disabled_of "button_right" self'
          then Map.button_right_clicked map_z Image draw i self'
               = (Ok tt, self', [])
          else Map.position
                 (snd (fst (Map.button_right_clicked map_z Image draw i
                              self')))
               = (fst (Map.position self) + 1, snd (Map.position self)))
    /\ (forall i,
          if disabled_of "button_down" self'
          then Map.button_down_clicked map_z Image draw i self'
               = (Ok tt, self', [])
          else Map.position
                 (snd (fst (Map.button_down_clicked map_z Image draw i
                              self')))
               = (fst (Map.position self), snd (Map.position self) + 1)).
Proof.
  intros Image map_z draw interaction self self' events Hids Hnav.
  unfold Map.navigate in Hnav.
  destruct (draw (Map.position self) (Map.user self)) as [img|e];
    [|discriminate].
  injection Hnav as <- _.
  unfold Map.update_buttons. destruct (Map.position self) as [x y].
  rewrite (update_buttons_children map_z x y _ _ Hids).
  unfold disabled_of, Map.button_left_clicked, Map.button_up_clicked,
    Map.button_right_clicked, Map.button_down_clicked.
  cbn [Map.position Map.children fst snd existsb Map.custom_id Map.disabled
       String.eqb Ascii.eqb Bool.eqb andb orb].
  rewrite ?orb_false_r.
  split; [reflexivity|]. split; [reflexivity|].
  unfold Map.should_disable.
  repeat split; intros i;
    rewrite move_equation; cbn [Map.position fst snd];
    rewrite ?Z.add_0_r;
    change (x + -1) with (x - 1); change (y + -1) with (y - 1);
    match goal with
    | |- context [Map.validate_coord map_z ?c] =>
        destruct (Map.validate_coord map_z c) eqn:E
    end;
    cbn [negb]; try reflexivity;
    match goal with
    | |- Map.position (snd (fst (Map.navigate ?m ?I ?d ?i ?s))) = _ =>
        exact (proj1 (navigate_keeps I m d i s))
    end.
Qed.

Lemma arrows_match_moves_witness :
  (map Map.custom_id (Map.children (Map.__init__ (0, 0) "Ann"))
   = map_button_ids
   /\ fst (fst (Map.navigate small_map (Z * Z) sketch 1
                  (Map.__init__ (0, 0) "Ann"))) = Ok tt)
  /\ disabled_of "button_confirm"
       (snd (fst (Map.navigate small_map (Z * Z) sketch 1
                    (Map.__init__ (0, 0) "Ann")))) = true.
Proof.
  split; [split; reflexivity|].
  exact (proj1 (proj2
           (arrows_match_moves (Z * Z) small_map sketch 1
              (Map.__init__ (0, 0) "Ann") _ _ eq_refl eq_refl))).
Defined.

(** X19: two opposite moves cancel: when a view is on the map and a move
    leads to a square of the map, this move followed by the opposite one
    brings the position back, whatever the drawing does. *)
Theorem opposite_moves_cancel :
  forall (Image : Type) map_z (draw : Z * Z -> string -> result Image)
         i1 i2 x y (self : Map.t),
    Map.validate_coord map_z (Map.position self) = true ->
    Map.validate_coord map_z
      (fst (Map.position self) + x, snd (Map.position self) + y) = true ->
    Map.position
      (snd (fst (Map.move map_z Image draw i2 (- x) (- y)
                   (snd (fst (Map.move map_z Image draw i1 x y self))))))
    = Map.position self.
Proof.
  intros Image map_z draw i1 i2 x y self Hhere Hthere.
  rewrite (proj1 (move_keeps Image map_z draw i2 (- x) (- y) _)).
  rewrite (proj1 (move_keeps Image map_z draw i1 x y self)), Hthere.
  cbn [fst snd]. destruct (Map.position self) as [x0 y0]. cbn [fst snd] in *.
  replace (x0 + x + - x) with x0 by lia.
  replace (y0 + y + - y) with y0 by lia.
  now rewrite Hhere.
Qed.

Lemma opposite_moves_cancel_witness :
  (Map.validate_coord small_map (Map.position (Map.__init__ (1, 0) "Ann"))
   = true
   /\ Map.validate_coord small_map (1 + 0, 0 + -1) = true)
  /\ Map.position
       (snd (fst (Map.move small_map (Z * Z) sketch 2 (- 0) (- -1)
                    (snd (fst (Map.move small_map (Z * Z) sketch 1 0 (-1)
                                 (Map.__init__ (1, 0) "Ann")))))))
     = (1, 0).
Proof.
  split; [split; reflexivity|].
  exact (opposite_moves_cancel (Z * Z) small_map sketch 1 2 0 (-1)
           (Map.__init__ (1, 0) "Ann") eq_refl eq_refl).
Defined.

End MapMoves.
